(** * TPF: the planning core of the Tactical Planning System

    A shallow embedding of the task repository
    (features/planing/PlanningContext), of the dashboard's realism point,
    its zones and its display order (pages/Dashboard.jsx), of the daily
    plan's delete handler (pages/DailyPlan, the version with subtasks) and
    of the observation page's convert-to-task handler
    (pages/Observations.jsx), with the constants of config/constants.js,
    and the properties the specification states about them.

    Conventions of the embedding.
    - A JavaScript number that holds hours (rt, availableTime, the
      realism point) is an exact rational [Q]; a number that holds an
      identifier, an importance level or a time value in milliseconds is
      an integer [Z].  NaN, the infinities and binary rounding are
      outside the model.
    - A [Date] is its time value, milliseconds since the epoch; local
      time is that of a zone with a fixed offset from UTC.
    - A React state cell updated with [setX(prev => f(prev))] is a field
      of a state record, and the update is the function [f] applied to
      that field.
    - [Date.now()] and [new Date()] read a clock that the caller passes
      in as [now].
    - [window.confirm] answers with a boolean that the caller passes in;
      [alert] appends its message to a log. *)

From Stdlib Require Import ZArith QArith Qround Lqa Lia Bool List String Ascii.
From Stdlib Require Import Sorting.Sorted Sorting.Permutation.
Import ListNotations.

Set Implicit Arguments.
Local Open Scope Z_scope.

(* ================================================================== *)
(** * Part I: the program *)
(* ================================================================== *)

(** ** JavaScript built-ins used by the sources *)

Module JS.

(** [parseFloat], [parseInt] and [new Date] as the repository calls them
    on values that are already converted (every caller hands over
    [parseFloat(form.rt)], [parseInt(form.il)], [new Date(form.idl)]):
    on a number, respectively a Date, they give the same value back. *)
Definition parseFloat (x : Q) : Q := x.
Definition parseInt (x : Z) : Z := x.
Definition newDate (t : Z) : Z := t.

(** White space removed by [String.prototype.trim], on one-byte
    characters: TAB, LF, VT, FF, CR and SPACE. *)
Definition isWhiteSpace (c : ascii) : bool :=
  let n := nat_of_ascii c in
  ((9 <=? n) && (n <=? 13))%nat || (n =? 32)%nat.

Fixpoint trimStart (s : string) : string :=
  match s with
  | EmptyString => EmptyString
  | String c s' => if isWhiteSpace c then trimStart s' else s
  end.

Fixpoint rev_string (acc s : string) : string :=
  match s with
  | EmptyString => acc
  | String c s' => rev_string (String c acc) s'
  end.

Definition trimEnd (s : string) : string :=
  rev_string EmptyString (trimStart (rev_string EmptyString s)).

Definition trim (s : string) : string := trimEnd (trimStart s).

(** Truthiness of a string: only the empty string is falsy. *)
Definition truthy (s : string) : bool :=
  match s with EmptyString => false | _ => true end.

(** Milliseconds in a day. *)
Definition msPerDay : Z := 86400000.

(** [d.setHours(0, 0, 0, 0)]: the start of the local day that holds the
    instant [t], for a zone whose clocks are [tz] milliseconds ahead of
    UTC. *)
Definition setHours0 (tz t : Z) : Z := t - (t + tz) mod msPerDay.

(** [d.setDate(d.getDate() + 1)] in such a zone: the same local time on
    the next calendar day. *)
Definition setDateNext (t : Z) : Z := t + msPerDay.

End JS.

(** ** config/constants.js *)

Module Constants.

Module IMPORTANCE.
Definition MUST : Z := 1.
Definition HIGH : Z := 2.
Definition MEDIUM : Z := 3.
Definition OPTIONAL : Z := 4.
End IMPORTANCE.

Module RP_LIMITS.
Definition SAFE : Q := 0.8.
Definition RISKY : Q := 1.0.
Definition OVERLOAD : Q := 1.0.
End RP_LIMITS.

Definition OBSERVATION_BUFFER_DAYS : Z := 2.

End Constants.

(** ** PlanningContext: the task repository *)

Module PlanningContext.

(** A task object.  [addTask] writes [id], [title], [rt], [idl], [il] and
    [createdAt]; [parentTaskId] and [linksTo] are the two further keys the
    pages read, and reach a task only through the spread of [updateTask].
    A key that is absent (or null) is [None]; an absent [linksTo] is the
    empty list. *)
Record Task : Type := mkTask {
  id : Z;
  title : string;
  rt : Q;
  idl : Z;
  il : Z;
  createdAt : Z;
  parentTaskId : option Z;
  linksTo : list Z
}.

(** The argument of [addTask]: the keys it reads. *)
Record TaskInput : Type := mkTaskInput {
  in_title : string;
  in_rt : Q;
  in_idl : Z;
  in_il : Z
}.

(** The [updates] argument of [updateTask]: a partial object.  Each key is
    [None] when the object does not carry it.  For [parentTaskId],
    [Some None] is the key carried with the value null. *)
Record Updates : Type := mkUpdates {
  u_id : option Z;
  u_title : option string;
  u_rt : option Q;
  u_idl : option Z;
  u_il : option Z;
  u_createdAt : option Z;
  u_parentTaskId : option (option Z);
  u_linksTo : option (list Z)
}.

Definition noUpdates : Updates :=
  mkUpdates None None None None None None None None.

(** The two state cells of [PlanningProvider]. *)
Record State : Type := mkState {
  tasks : list Task;
  availableTime : Q
}.

(** [useState([])] and [useState(8)]. *)
Definition initialState : State := mkState [] 8%Q.

Definition setTasks (f : list Task -> list Task) (s : State) : State :=
  mkState (f (tasks s)) (availableTime s).

Definition setAvailableTime (a : Q) (s : State) : State :=
  mkState (tasks s) a.

(** [x !== undefined ? conv(x) : old]. *)
Definition orElse {A B : Type} (conv : A -> B) (x : option A) (old : B) : B :=
  match x with
  | Some v => conv v
  | None => old
  end.

(** The object literal of [addTask]. *)
Definition newTask (now : Z) (task : TaskInput) : Task :=
  {| id := now;
     title := in_title task;
     rt := JS.parseFloat (in_rt task);
     idl := JS.newDate (in_idl task);
     il := JS.parseInt (in_il task);
     createdAt := now;
     parentTaskId := None;
     linksTo := [] |}.

(** [addTask]: appends the new task and returns it. *)
Definition addTask (now : Z) (task : TaskInput) (s : State) : Task * State :=
  let t := newTask now task in
  (t, setTasks (fun prev => prev ++ [t]) s).

(** [{ ...task, ...updates, rt: ..., idl: ..., il: ... }]. *)
Definition merge (task : Task) (updates : Updates) : Task :=
  {| id := orElse (fun v => v) (u_id updates) (id task);
     title := orElse (fun v => v) (u_title updates) (title task);
     rt := orElse JS.parseFloat (u_rt updates) (rt task);
     idl := orElse JS.newDate (u_idl updates) (idl task);
     il := orElse JS.parseInt (u_il updates) (il task);
     createdAt := orElse (fun v => v) (u_createdAt updates) (createdAt task);
     parentTaskId :=
       orElse (fun v => v) (u_parentTaskId updates) (parentTaskId task);
     linksTo := orElse (fun v => v) (u_linksTo updates) (linksTo task) |}.

(** The callback that [updateTask] maps over the tasks. *)
Definition updateOne (taskId : Z) (updates : Updates) (task : Task) : Task :=
  if id task =? taskId then merge task updates else task.

(** [updateTask]. *)
Definition updateTask (taskId : Z) (updates : Updates) (s : State) : State :=
  setTasks (fun prev => map (updateOne taskId updates) prev) s.

(** [deleteTask]. *)
Definition deleteTask (taskId : Z) (s : State) : State :=
  setTasks (fun prev => filter (fun task => negb (id task =? taskId)) prev) s.

(** [catastrophicWipeOut]. *)
Definition catastrophicWipeOut (s : State) : State :=
  setTasks
    (fun prev => filter (fun task => il task =? Constants.IMPORTANCE.MUST) prev)
    s.

(** [getTasksForDate], in a zone [tz] milliseconds ahead of UTC. *)
Definition getTasksForDate (tz : Z) (s : State) (date : Z) : list Task :=
  let targetDate := JS.setHours0 tz (JS.newDate date) in
  let nextDay := JS.setDateNext (JS.newDate targetDate) in
  filter
    (fun task =>
       let taskDate := JS.newDate (idl task) in
       (targetDate <=? taskDate) && (taskDate <? nextDay))
    (tasks s).

(** [getTodayTasks]. *)
Definition getTodayTasks (tz now : Z) (s : State) : list Task :=
  getTasksForDate tz s (JS.newDate now).

End PlanningContext.

(** ** Array.prototype.sort *)

Module ArraySort.

(** [insert compareFn x l] puts [x] in front of the first element that
    [compareFn] does not order before it. *)
Fixpoint insert {A : Type} (compareFn : A -> A -> Z) (x : A) (l : list A)
  : list A :=
  match l with
  | [] => [x]
  | y :: l' =>
      if compareFn x y <=? 0 then x :: l else y :: insert compareFn x l'
  end.

(** [arr.sort(compareFn)]: the language prescribes a stable sort, so for a
    consistent [compareFn] the result does not depend on the engine; it is
    computed here by insertion, last element first. *)
Definition sort {A : Type} (compareFn : A -> A -> Z) (arr : list A) : list A :=
  fold_right (insert compareFn) [] arr.

End ArraySort.

(** ** pages/Dashboard.jsx *)

Module Dashboard.
Import PlanningContext.

(** The [useMemo] body of [realismPoint]. *)
Definition realismPoint (todayTasks : list Task) (availableTime : Q) : Q :=
  let totalRT := fold_left (fun sum task => (sum + rt task)%Q) todayTasks 0%Q in
  if Qlt_le_dec 0 availableTime then (totalRT / availableTime)%Q else 0%Q.

(** The three status objects of [getRPStatus], named by their label. *)
Inductive Zone : Type := Safe | Risky | Overload.

(** [getRPStatus]. *)
Definition getRPStatus (realismPoint : Q) : Zone :=
  if Qlt_le_dec realismPoint Constants.RP_LIMITS.SAFE then Safe
  else if Qlt_le_dec realismPoint Constants.RP_LIMITS.RISKY then Risky
  else Overload.

(** The comparator of [sortedTasks]. *)
Definition compareTasks (a b : Task) : Z :=
  if negb (il a =? il b) then il a - il b
  else JS.newDate (idl a) - JS.newDate (idl b).

(** [sortedTasks]: a copy of [todayTasks], sorted. *)
Definition sortedTasks (todayTasks : list Task) : list Task :=
  ArraySort.sort compareTasks todayTasks.

(** The click handler of the CWA button: [confirmed] is the answer to
    [window.confirm]. *)
Definition handleCWA (confirmed : bool) (s : State) : State :=
  let nonCriticalTasks :=
    filter (fun task => negb (il task =? Constants.IMPORTANCE.MUST)) (tasks s) in
  if (Z.of_nat (List.length nonCriticalTasks) =? 0) then s
  else if confirmed then catastrophicWipeOut s else s.

End Dashboard.

(** ** pages/DailyPlan.jsx *)

Module DailyPlan.
Import PlanningContext.

(** [handleDelete]: [confirmed] is the answer to [window.confirm] on
    "Are you sure you want to delete this task? All subtasks will also be
    deleted.". *)
Definition handleDelete (confirmed : bool) (taskId : Z) (s : State) : State :=
  if confirmed then deleteTask taskId s else s.

End DailyPlan.

(** ** features/observations/ObservationsContext *)

Module ObservationsContext.

(** Modelled from the spec: the context that owns the observations is not
    among the sources; only the page that uses it is.  The stored status
    of an observation is [in_buffer] until an analysis or a conversion
    makes it [analyzed]. *)
Inductive Status : Type := in_buffer | analyzed.

(** Modelled from the spec: the state of an observation as a reader sees
    it at a given instant.  [ready_for_analysis] is derived from the
    timestamp, never stored. *)
Inductive Phase : Type := InBuffer | ReadyForAnalysis | Analyzed.

(** Modelled from the spec: the observation of the data model. *)
Record Observation : Type := mkObservation {
  o_id : Z;
  content : string;
  o_createdAt : Z;
  status : Status;
  tags : list string;
  lessonIdentified : option string;
  ep : option Q;
  convertedTaskId : option Z
}.

(** The state cell of the provider, [observations]. *)
Record State : Type := mkState {
  observations : list Observation
}.

(** Modelled from the spec: [getDaysRemaining] of ObservationsContext is
    not among the sources.  The specification gives
    [bufferDays - floor((now - createdAt) in days)], clamped to [>= 0],
    with [bufferDays] the configuration constant. *)
Definition getDaysRemaining (observation : Observation) (now : Z) : Z :=
  Z.max 0
    (Constants.OBSERVATION_BUFFER_DAYS
     - (now - o_createdAt observation) / JS.msPerDay).

(** Modelled from the spec: the derived state of an observation.  It is
    ready for analysis when it is stored as [in_buffer] and no day of the
    buffer remains. *)
Definition phase (now : Z) (observation : Observation) : Phase :=
  match status observation with
  | analyzed => Analyzed
  | in_buffer =>
      if 0 <? getDaysRemaining observation now then InBuffer
      else ReadyForAnalysis
  end.

(** Modelled from the spec: the observation that a conversion leaves,
    marked [analyzed] with [convertedTaskId] set to the new task's id and
    its other fields as they were. *)
Definition converted (taskId : Z) (obs : Observation) : Observation :=
  mkObservation (o_id obs) (content obs) (o_createdAt obs) analyzed
    (tags obs) (lessonIdentified obs) (ep obs) (Some taskId).

(** Modelled from the spec: [convertToTask] of ObservationsContext is not
    among the sources; the page calls it with the observation's id and the
    new task's id.  The specification has the conversion mark that
    observation as above; the other observations stay as they are. *)
Definition convertToTask (observationId taskId : Z) (s : State) : State :=
  mkState
    (map (fun obs => if o_id obs =? observationId then converted taskId obs
                     else obs)
         (observations s)).

End ObservationsContext.

(** ** pages/Observations.jsx *)

Module Observations.
Import ObservationsContext.

(** The state cell [taskFormData]: what the form's inputs hold. *)
Record TaskFormData : Type := mkTaskFormData {
  f_title : string;
  f_rt : string;
  f_idl : string;
  f_il : Z
}.

Definition emptyTaskFormData : TaskFormData :=
  mkTaskFormData EmptyString EmptyString EmptyString Constants.IMPORTANCE.MEDIUM.

(** What a handler of the page can read and change: the two contexts, the
    page's own state cells, and the messages shown with [alert]. *)
Record World : Type := mkWorld {
  planning : PlanningContext.State;
  observing : ObservationsContext.State;
  selectedObservation : option Observation;
  taskFormData : TaskFormData;
  isConvertModalOpen : bool;
  alerts : list string
}.

(** A handler is a sequence of statements over that world. *)
Definition Handler (A : Type) : Type := World -> A * World.

Definition ret {A : Type} (a : A) : Handler A := fun w => (a, w).

Definition bind {A B : Type} (c : Handler A) (k : A -> Handler B) : Handler B :=
  fun w => let (a, w') := c w in k a w'.

Notation "x <- c ;; k" := (bind c (fun x => k))
  (at level 61, c at next level, right associativity).
Notation "c ;; k" := (bind c (fun _ => k))
  (at level 61, right associativity).

(** Running a handler for its effect. *)
Definition exec {A : Type} (c : Handler A) (w : World) : World := snd (c w).

Definition read {A : Type} (cell : World -> A) : Handler A :=
  fun w => (cell w, w).

Definition addTask (now : Z) (task : PlanningContext.TaskInput)
  : Handler PlanningContext.Task :=
  fun w =>
    let (t, p) := PlanningContext.addTask now task (planning w) in
    (t, mkWorld p (observing w) (selectedObservation w) (taskFormData w)
          (isConvertModalOpen w) (alerts w)).

Definition convertToTask (observationId taskId : Z) : Handler unit :=
  fun w =>
    (tt, mkWorld (planning w)
           (ObservationsContext.convertToTask observationId taskId (observing w))
           (selectedObservation w) (taskFormData w) (isConvertModalOpen w)
           (alerts w)).

Definition setSelectedObservation (o : option Observation) : Handler unit :=
  fun w =>
    (tt, mkWorld (planning w) (observing w) o (taskFormData w)
           (isConvertModalOpen w) (alerts w)).

Definition setTaskFormData (fd : TaskFormData) : Handler unit :=
  fun w =>
    (tt, mkWorld (planning w) (observing w) (selectedObservation w) fd
           (isConvertModalOpen w) (alerts w)).

Definition setIsConvertModalOpen (b : bool) : Handler unit :=
  fun w =>
    (tt, mkWorld (planning w) (observing w) (selectedObservation w)
           (taskFormData w) b (alerts w)).

Definition alert (msg : string) : Handler unit :=
  fun w =>
    (tt, mkWorld (planning w) (observing w) (selectedObservation w)
           (taskFormData w) (isConvertModalOpen w) (alerts w ++ [msg])).

(** The required-field test of [handleConvertToTask]. *)
Definition missingField (fd : TaskFormData) : bool :=
  negb (JS.truthy (JS.trim (f_title fd)))
  || negb (JS.truthy (f_rt fd))
  || negb (JS.truthy (f_idl fd)).

Section Handlers.

(** [parseFloat] and [new Date] on the text of a form input. *)
Variable parseFloatText : string -> Q.
Variable dateOfText : string -> Z.

(** [handleConvertToTask]. *)
Definition handleConvertToTask (now : Z) : Handler unit :=
  selected <- read selectedObservation ;;
  match selected with
  | None => ret tt
  | Some selectedObservation =>
      taskFormData <- read taskFormData ;;
      if missingField taskFormData
      then alert "Please fill in all required task fields"
      else
        newTask <- addTask now
                     (PlanningContext.mkTaskInput
                        (JS.trim (f_title taskFormData))
                        (parseFloatText (f_rt taskFormData))
                        (dateOfText (f_idl taskFormData))
                        (JS.parseInt (f_il taskFormData))) ;;
        convertToTask (o_id selectedObservation) (PlanningContext.id newTask) ;;
        setIsConvertModalOpen false ;;
        setSelectedObservation None ;;
        setTaskFormData emptyTaskFormData ;;
        alert "Observation converted to task successfully!"
  end.

End Handlers.

End Observations.

(** ** The vocabulary of the specification *)

Module Spec.
Import PlanningContext.

(** The start of the local day of [date]: the latest local midnight that
    is not after [date], in a zone [tz] milliseconds ahead of UTC. *)
Definition startOfDay (tz date : Z) : Z := date - (date + tz) mod JS.msPerDay.

(** The sum of the required times of a sequence of tasks. *)
Fixpoint totalRequiredTime (T : list Task) : Q :=
  match T with
  | [] => 0%Q
  | t :: T' => (rt t + totalRequiredTime T')%Q
  end.

(** Importance level ascending, then deadline ascending. *)
Definition displayOrder (a b : Task) : Prop :=
  il a < il b \/ (il a = il b /\ idl a <= idl b).

(** The tasks with importance level [i] and deadline [d]. *)
Definition hasKeys (i d : Z) (t : Task) : bool :=
  (il t =? i) && (idl t =? d).

(** [descendant ts a t]: in the repository [ts], the task [t] is reached
    from the task with id [a] by following [parentTaskId] downwards. *)
Inductive descendant (ts : list Task) (a : Z) : Task -> Prop :=
| descendant_child (t : Task) :
    In t ts -> parentTaskId t = Some a -> descendant ts a t
| descendant_step (p t : Task) :
    descendant ts a p -> In t ts -> parentTaskId t = Some (id p) ->
    descendant ts a t.

End Spec.

(** ** Sample data *)

Module Samples.
Import PlanningContext.

(** A task input with a negative required time and an importance level
    outside 1..4. *)
Definition invalidInput : TaskInput := mkTaskInput "x" (-1 # 1) 0 7.

(** The repository after one [addTask] at instant 1. *)
Definition oneTask : State :=
  snd (addTask 1 (mkTaskInput "a" 2 100 3) initialState).

(** An [updates] object that carries the two keys [id] and [createdAt]. *)
Definition idUpdates : Updates :=
  mkUpdates (Some 99) None None None None (Some 77) None None.

(** An [updates] object as the task form builds it: title, rt, idl, il and
    parentTaskId. *)
Definition formUpdates : Updates :=
  mkUpdates None (Some "b"%string) (Some (3 # 2)) (Some 200) (Some 1) None
    (Some None) None.

(** [{ parentTaskId: p }] and [{ linksTo: l }]. *)
Definition parentUpdate (p : Z) : Updates :=
  mkUpdates None None None None None None (Some (Some p)) None.

Definition linksUpdate (l : list Z) : Updates :=
  mkUpdates None None None None None None None (Some l).

(** Four tasks added at the instants 1 to 4, then made into a parent
    (id 1), its subtask (id 2), the subtask's own subtask (id 3) and an
    unrelated task (id 4) that links to the parent. *)
Definition family : State :=
  let s := snd (addTask 1 (mkTaskInput "parent" 1 100 1) initialState) in
  let s := snd (addTask 2 (mkTaskInput "child" 1 100 2) s) in
  let s := snd (addTask 3 (mkTaskInput "grandchild" 1 100 2) s) in
  let s := snd (addTask 4 (mkTaskInput "other" 1 100 3) s) in
  let s := updateTask 2 (parentUpdate 1) s in
  let s := updateTask 3 (parentUpdate 2) s in
  updateTask 4 (linksUpdate [1]) s.

(** A day's load of 2.5 h and 3.5 h, with a third task due the day
    after, against the 8 h of the initial state. *)
Definition busyDay : State :=
  let s := snd (addTask 1 (mkTaskInput "a" 2.5 (3 * JS.msPerDay + 1000) 1)
                  initialState) in
  let s := snd (addTask 2 (mkTaskInput "b" 3.5 (4 * JS.msPerDay - 1) 2) s) in
  snd (addTask 3 (mkTaskInput "c" 4 (4 * JS.msPerDay) 2) s).

(** An observation caught at instant 0. *)
Definition caught : ObservationsContext.Observation :=
  ObservationsContext.mkObservation 7 "idea" 0 ObservationsContext.in_buffer
    [] None None None.

(** A form that passes the required-field test. *)
Definition filledForm : Observations.TaskFormData :=
  Observations.mkTaskFormData " write report " "1.5" "2024-05-01T10:00" 2.

(** The page with [caught] in the repository and selected, and a given
    form. *)
Definition world0 (fd : Observations.TaskFormData) : Observations.World :=
  Observations.mkWorld initialState (ObservationsContext.mkState [caught])
    (Some caught) fd true [].

End Samples.

(** ** The local calendar *)

Module Calendar.

(** The number of the local day that holds the instant [t], counted from
    the epoch, in a zone [tz] milliseconds ahead of UTC. *)
Definition localDay (tz t : Z) : Z := (t + tz) / JS.msPerDay.

(** A required time that is not negative. *)
Definition nonNegative (t : PlanningContext.Task) : Prop :=
  (0 <= PlanningContext.rt t)%Q.

End Calendar.

(** ** pages/Dashboard.jsx: what the page renders and its handlers *)

Module DashboardView.
Import PlanningContext Dashboard.

(** [a < b] and [a >= b] on numbers. *)
Definition lt (a b : Q) : bool := if Qlt_le_dec a b then true else false.
Definition ge (a b : Q) : bool := Qle_bool b a.

(** The three paragraphs under the status line. *)
Inductive Message : Type := ImmediateAction | TightSchedule | RealisticPlan.

(** [{cond && <p>...</p>}]: the paragraph is rendered when [cond] holds. *)
Definition when {A : Type} (cond : bool) (x : A) : list A :=
  if cond then [x] else [].

(** The paragraphs rendered for a realism point, top to bottom. *)
Definition messages (realismPoint : Q) : list Message :=
  when (ge realismPoint Constants.RP_LIMITS.OVERLOAD) ImmediateAction
  ++ when (ge realismPoint Constants.RP_LIMITS.SAFE
           && lt realismPoint Constants.RP_LIMITS.RISKY) TightSchedule
  ++ when (lt realismPoint Constants.RP_LIMITS.SAFE) RealisticPlan.

(** An object literal with integer keys, and the read [o[k]]. *)
Fixpoint lookup {A : Type} (k : Z) (o : list (Z * A)) : option A :=
  match o with
  | [] => None
  | (k', v) :: o' => if k' =? k then Some v else lookup k o'
  end.

(** [o[k] || fallback] for string values. *)
Definition lookupOr (k : Z) (o : list (Z * string)) (fallback : string)
  : string :=
  match lookup k o with
  | Some v => if JS.truthy v then v else fallback
  | None => fallback
  end.

Definition labels : list (Z * string) :=
  [ (Constants.IMPORTANCE.MUST, "Must"%string);
    (Constants.IMPORTANCE.HIGH, "High"%string);
    (Constants.IMPORTANCE.MEDIUM, "Medium"%string);
    (Constants.IMPORTANCE.OPTIONAL, "Optional"%string) ].

(** [getImportanceLabel]. *)
Definition getImportanceLabel (il : Z) : string :=
  lookupOr il labels "Unknown".

Definition colors : list (Z * string) :=
  [ (Constants.IMPORTANCE.MUST, "bg-red-100 text-red-800"%string);
    (Constants.IMPORTANCE.HIGH, "bg-orange-100 text-orange-800"%string);
    (Constants.IMPORTANCE.MEDIUM, "bg-yellow-100 text-yellow-800"%string);
    (Constants.IMPORTANCE.OPTIONAL, "bg-gray-100 text-gray-800"%string) ].

(** [getImportanceColor]. *)
Definition getImportanceColor (il : Z) : string :=
  lookupOr il colors "bg-gray-100 text-gray-800".

(** The two messages of the CWA button. *)
Inductive Notice : Type :=
| NothingToWipe
| Executed (removed : nat).

(** The click handler of the CWA button with what it reports: [confirmed]
    is the answer to [window.confirm], and the notices are the alerts it
    shows. *)
Definition handleCWAClick (confirmed : bool) (s : State)
  : State * list Notice :=
  let nonCriticalTasks :=
    filter (fun task => negb (il task =? Constants.IMPORTANCE.MUST)) (tasks s) in
  if Z.of_nat (List.length nonCriticalTasks) =? 0 then (s, [NothingToWipe])
  else if confirmed
       then (catastrophicWipeOut s, [Executed (List.length nonCriticalTasks)])
       else (s, []).

(** [x || 0] on the result of [parseFloat]: [None] is NaN. *)
Definition orZero (x : option Q) : Q :=
  match x with
  | Some v => if Qeq_bool v 0 then 0%Q else v
  | None => 0%Q
  end.

(** The change handler of the available-time input: [value] is
    [parseFloat(e.target.value)]. *)
Definition handleAvailableTimeChange (value : option Q) (s : State) : State :=
  setAvailableTime (orZero value) s.

End DashboardView.

(** ** The texts of form inputs *)

Module FormText.

(** The text of an [<input type="number">] is empty or the decimal text
    of a number; it is represented by [None], respectively by the number.
    So [!text] is [None], [parseFloat(text)] is the number, and
    [x.toString()] of a number [x] is [Some x]. *)
Definition NumberText : Type := option Q.

(** The text of an [<input type="datetime-local">], as well as the first
    16 characters of an ISO string, is empty or [YYYY-MM-DDTHH:mm]; it is
    represented by [None], respectively by the wall-clock minute it names,
    in milliseconds. *)
Definition DateTimeText : Type := option Z.

Definition msPerMinute : Z := 60000.

(** [d.toISOString().slice(0, 16)]: the UTC wall clock of the instant [t],
    cut to the minute. *)
Definition isoMinute (t : Z) : DateTimeText := Some (t - t mod msPerMinute).

(** [new Date(text)] for a date-time text without a zone: the language
    reads it as local time, in a zone [tz] milliseconds ahead of UTC. *)
Definition dateOfLocalText (tz w : Z) : Z := w - tz.

(** The text [YYYY-MM-DD] of an [<input type="date">] is represented by
    the number [k] of its day, counted from the epoch.
    [new Date(text)] for such a text: the language reads it as UTC
    midnight. *)
Definition dateOfDayText (k : Z) : Z := k * JS.msPerDay.

(** [new Date().toISOString().split('T')[0]]: the UTC day of [now]. *)
Definition dayTextOf (now : Z) : Z := now / JS.msPerDay.

(** Truthiness of an optional id: null, undefined and 0 are falsy. *)
Definition truthyId (p : option Z) : bool :=
  match p with
  | Some v => negb (v =? 0)
  | None => false
  end.

(** [p ? p.toString() : ''], the text of a select's value: [None] is the
    empty text. *)
Definition idText (p : option Z) : option Z := if truthyId p then p else None.

End FormText.

(** ** pages/DailyPlan.jsx: the form, the list and the parent choice *)

Module DailyPlanPage.
Import PlanningContext FormText.

(** The state cell [formData]. *)
Record FormData : Type := mkFormData {
  fd_title : string;
  fd_rt : NumberText;
  fd_idl : DateTimeText;
  fd_il : Z;
  fd_parentTaskId : option Z
}.

Definition emptyFormData : FormData :=
  mkFormData EmptyString None None Constants.IMPORTANCE.MEDIUM None.

(** The page with the planning context it uses and the messages it has
    shown with [alert]. *)
Record Page : Type := mkPage {
  planning : State;
  isFormOpen : bool;
  editingTask : option Task;
  selectedDate : Z;
  selectedTaskForSubtask : option Task;
  formData : FormData;
  alerts : list string
}.

(** [useState(new Date().toISOString().split('T')[0])] and the other
    initial cells. *)
Definition initialPage (now : Z) (s : State) : Page :=
  mkPage s false None (dayTextOf now) None emptyFormData [].

Definition setFormData (fd : FormData) (w : Page) : Page :=
  mkPage (planning w) (isFormOpen w) (editingTask w) (selectedDate w)
    (selectedTaskForSubtask w) fd (alerts w).

Definition alert (msg : string) (w : Page) : Page :=
  mkPage (planning w) (isFormOpen w) (editingTask w) (selectedDate w)
    (selectedTaskForSubtask w) (formData w) (alerts w ++ [msg]).

(** The change handlers of the title, time and parent inputs:
    [setFormData({ ...formData, key: e.target.value })]. *)
Definition changeTitle (v : string) (w : Page) : Page :=
  let fd := formData w in
  setFormData (mkFormData v (fd_rt fd) (fd_idl fd) (fd_il fd)
                 (fd_parentTaskId fd)) w.

Definition changeRt (v : NumberText) (w : Page) : Page :=
  let fd := formData w in
  setFormData (mkFormData (fd_title fd) v (fd_idl fd) (fd_il fd)
                 (fd_parentTaskId fd)) w.

Definition changeParentTaskId (v : option Z) (w : Page) : Page :=
  let fd := formData w in
  setFormData (mkFormData (fd_title fd) (fd_rt fd) (fd_idl fd) (fd_il fd) v) w.

(** [handleOpenForm(task = null, parentTaskId = null)]. *)
Definition handleOpenForm (task : option Task) (parentTaskId : option Z)
    (w : Page) : Page :=
  let fd :=
    match task with
    | Some task =>
        mkFormData (title task) (Some (rt task))
          (isoMinute (JS.newDate (idl task))) (il task)
          (idText (PlanningContext.parentTaskId task))
    | None =>
        mkFormData EmptyString None
          (isoMinute (dateOfDayText (selectedDate w)))
          Constants.IMPORTANCE.MEDIUM (idText parentTaskId)
    end in
  mkPage (planning w) true task (selectedDate w) (selectedTaskForSubtask w)
    fd (alerts w).

(** [handleCloseForm]. *)
Definition handleCloseForm (w : Page) : Page :=
  mkPage (planning w) false None (selectedDate w) None emptyFormData
    (alerts w).

(** The object [taskData] of [handleSubmit], as [updateTask] and as
    [addTask] read it. *)
Definition taskDataUpdates (title : string) (rt : Q) (idl il : Z)
    (parent : option Z) : Updates :=
  mkUpdates None (Some title) (Some rt) (Some idl) (Some il) None
    (Some parent) None.

Definition taskDataInput (title : string) (rt : Q) (idl il : Z) : TaskInput :=
  mkTaskInput title rt idl il.

(** [handleSubmit], in a zone [tz] milliseconds ahead of UTC. *)
Definition handleSubmit (tz now : Z) (w : Page) : Page :=
  let fd := formData w in
  match JS.truthy (JS.trim (fd_title fd)), fd_rt fd, fd_idl fd with
  | true, Some rtText, Some idlText =>
      let title := JS.trim (fd_title fd) in
      let rt := JS.parseFloat rtText in
      let idl := dateOfLocalText tz idlText in
      let il := JS.parseInt (fd_il fd) in
      let parent := fd_parentTaskId fd in
      let planning' :=
        match editingTask w with
        | Some editing =>
            updateTask (id editing) (taskDataUpdates title rt idl il parent)
              (planning w)
        | None => snd (addTask now (taskDataInput title rt idl il) (planning w))
        end in
      handleCloseForm
        (mkPage planning' (isFormOpen w) (editingTask w) (selectedDate w)
           (selectedTaskForSubtask w) (formData w) (alerts w))
  | _, _, _ => alert "Please fill in all required fields" w
  end.

(** The filter of [filteredTasks]: the deadline in the window of the
    selected date, and no parent. *)
Definition shownOn (tz : Z) (selectedDate : Z) (task : Task) : bool :=
  let targetDate := JS.setHours0 tz (dateOfDayText selectedDate) in
  let nextDay := JS.setDateNext (JS.newDate targetDate) in
  let taskDate := JS.newDate (idl task) in
  (targetDate <=? taskDate) && (taskDate <? nextDay)
  && negb (truthyId (parentTaskId task)).

(** [filteredTasks]: filtered, then sorted with the comparator that the
    dashboard uses too. *)
Definition filteredTasks (tz : Z) (w : Page) : list Task :=
  ArraySort.sort Dashboard.compareTasks
    (filter (shownOn tz (selectedDate w)) (tasks (planning w))).

(** [totalRT]. *)
Definition totalRT (tz : Z) (w : Page) : Q :=
  fold_left (fun sum task => (sum + rt task)%Q) (filteredTasks tz w) 0%Q.

(** [availableParentTasks]: the options of the parent select. *)
Definition availableParentTasks (w : Page) : list Task :=
  filter
    (fun task =>
       negb (truthyId (parentTaskId task))
       && match editingTask w with
          | None => true
          | Some editing => negb (id task =? id editing)
          end)
    (tasks (planning w)).

End DailyPlanPage.

(** ** The parent relation *)

Module Hierarchy.
Import PlanningContext FormText.

(** [parentEdge ts a b]: in [ts] a task with id [a] has the parent [b]. *)
Definition parentEdge (ts : list Task) (a b : Z) : Prop :=
  exists t, In t ts /\ id t = a /\ parentTaskId t = Some b /\ b <> 0.

(** [ancestor ts a b]: [b] is reached from [a] by one or more steps to
    the parent. *)
Inductive ancestor (ts : list Task) : Z -> Z -> Prop :=
| ancestor_parent (a b : Z) : parentEdge ts a b -> ancestor ts a b
| ancestor_step (a b c : Z) :
    parentEdge ts a b -> ancestor ts b c -> ancestor ts a c.

(** No task is its own ancestor. *)
Definition acyclic (ts : list Task) : Prop := forall a, ~ ancestor ts a a.

End Hierarchy.

(** ** pages/Observations.jsx: opening the convert form, and the analysis form *)

Module ObservationsPage.
Import ObservationsContext Observations.

Section OpenConvert.

(** [d.toISOString().slice(0, 16)] as a text. *)
Variable isoMinuteText : Z -> string.

(** [handleOpenConvert]. *)
Definition handleOpenConvert (now : Z) (observation : Observation)
  : Handler unit :=
  setSelectedObservation (Some observation) ;;
  setTaskFormData
    (mkTaskFormData (content observation) EmptyString (isoMinuteText now)
       Constants.IMPORTANCE.MEDIUM) ;;
  setIsConvertModalOpen true.

End OpenConvert.

(** [s.split(',')]. *)
Fixpoint split (s : string) : list string :=
  match s with
  | EmptyString => [EmptyString]
  | String c s' =>
      if Ascii.eqb c ","%char then EmptyString :: split s'
      else match split s' with
           | h :: t => String c h :: t
           | [] => [String c EmptyString]
           end
  end.

(** [l.join(', ')]. *)
Fixpoint join (l : list string) : string :=
  match l with
  | [] => EmptyString
  | x :: l' =>
      match l' with
      | [] => x
      | _ :: _ => (x ++ String ","%char (String " "%char (join l')))%string
      end
  end.

(** The tags of [handleAnalyze]:
    [text.split(',').map(tag => tag.trim()).filter(tag => tag.length > 0)]. *)
Definition parseTags (text : string) : list string :=
  filter (fun tag => (0 <? String.length tag)%nat) (map JS.trim (split text)).

(** The state cell [analysisData]. *)
Record AnalysisData : Type := mkAnalysisData {
  a_tags : string;
  a_lessonIdentified : string;
  a_ep : FormText.NumberText
}.

(** The second argument of [analyzeObservation]. *)
Record Analysis : Type := mkAnalysis {
  an_tags : list string;
  an_lessonIdentified : option string;
  an_ep : option Q
}.

(** [x || ''] and [x || null] on an optional text, and [x || ''] on an
    optional number. *)
Definition textOrEmpty (x : option string) : string :=
  match x with
  | Some v => v
  | None => EmptyString
  end.

Definition textOrNull (x : string) : option string :=
  if JS.truthy x then Some x else None.

Definition numberOrEmpty (x : option Q) : FormText.NumberText :=
  match x with
  | Some v => if Qeq_bool v 0 then None else Some v
  | None => None
  end.

(** The form that [handleOpenAnalysis] fills from an observation. *)
Definition openAnalysisData (observation : Observation) : AnalysisData :=
  mkAnalysisData
    (join (tags observation))
    (textOrEmpty (lessonIdentified observation))
    (numberOrEmpty (ep observation)).

(** What [handleAnalyze] hands to [analyzeObservation]. *)
Definition analysisOf (analysisData : AnalysisData) : Analysis :=
  mkAnalysis
    (parseTags (a_tags analysisData))
    (textOrNull (a_lessonIdentified analysisData))
    (match a_ep analysisData with
     | Some v => Some (JS.parseFloat v)
     | None => None
     end).

(** A tag as [parseTags] accepts it: not empty, nothing to trim, no
    comma. *)
Definition noComma (s : string) : Prop :=
  Forall (fun c => c <> ","%char) (list_ascii_of_string s).

Definition cleanTag (tag : string) : Prop :=
  tag <> EmptyString /\ JS.trimStart tag = tag /\ JS.trimEnd tag = tag
  /\ noComma tag.

End ObservationsPage.

(** ** pages/planning/TaskTreeView: the expanded nodes *)

Module TaskTreeView.

(** A [Set] of ids, in insertion order and without repetition. *)
Definition has (s : list Z) (x : Z) : bool := existsb (fun y => y =? x) s.

Definition add (x : Z) (s : list Z) : list Z := if has s x then s else s ++ [x].

Definition delete (x : Z) (s : list Z) : list Z :=
  filter (fun y => negb (y =? x)) s.

(** The updater of [toggleNode]. *)
Definition toggleNode (taskId : Z) (prev : list Z) : list Z :=
  let next := prev in
  if has next taskId then delete taskId next else add taskId next.

End TaskTreeView.

(** ** Sample pages *)

Module PageSamples.
Import PlanningContext DailyPlanPage.

(** Two root tasks, added at the instants 1 and 2. *)
Definition twoRoots : State :=
  snd (addTask 2 (mkTaskInput "b" 1 100 2)
         (snd (addTask 1 (mkTaskInput "a" 1 100 1) initialState))).

(** The form open on the second of them, with the first chosen as its
    parent. *)
Definition editingSecond : Page :=
  changeParentTaskId (Some 1)
    (handleOpenForm (Some (newTask 2 (mkTaskInput "b" 1 100 2))) None
       (initialPage 0 twoRoots)).

End PageSamples.

(** ** A convert form with a required time of -1 and a level of 7 *)

Module ConvertSamples.




End ConvertSamples.

(* ================================================================== *)
(** * Part II: properties *)
(* ================================================================== *)

(** ** Lists *)

Module ListFacts.

Lemma filter_idempotent {A : Type} (p : A -> bool) (l : list A) :
  filter p (filter p l) = filter p l.
Proof.
  induction l as [|x l IH]; cbn; [reflexivity|].
  destruct (p x) eqn:E; cbn; [rewrite E, IH|]; auto.
Qed.

Lemma filter_all {A : Type} (p : A -> bool) (l : list A) :
  filter (fun x => negb (p x)) l = [] -> filter p l = l.
Proof.
  induction l as [|x l IH]; cbn; [reflexivity|].
  destruct (p x); cbn; [intro H; rewrite IH; auto | discriminate].
Qed.

Lemma map_fixed {A : Type} (f : A -> A) (l : list A) :
  (forall x, In x l -> f x = x) -> map f l = l.
Proof.
  induction l as [|x l IH]; cbn; intro H; [reflexivity|].
  rewrite (H x (or_introl eq_refl)), IH; auto.
Qed.

End ListFacts.

(** ** The task repository *)

Module PlanningContextFacts.
Import PlanningContext Samples.

Lemma tasks_setTasks (f : list Task -> list Task) (s : State) :
  tasks (setTasks f s) = f (tasks s).
Proof. reflexivity. Qed.

Lemma availableTime_setTasks (f : list Task -> list Task) (s : State) :
  availableTime (setTasks f s) = availableTime s.
Proof. reflexivity. Qed.

(** *** addTask *)

(** C1, counterexample: [addTask] on an input whose required time is -1
    and whose importance level is 7 does not fail: it returns a task with
    these very values, and the repository, empty before, holds that task
    afterwards. *)
Lemma addTask_accepts_invalid_input :
  (in_rt invalidInput < 0)%Q /\
  ~ (1 <= in_il invalidInput <= 4) /\
  tasks (snd (addTask 1000 invalidInput initialState))
    = [fst (addTask 1000 invalidInput initialState)] /\
  tasks (snd (addTask 1000 invalidInput initialState)) <> tasks initialState /\
  (rt (fst (addTask 1000 invalidInput initialState)) < 0)%Q /\
  il (fst (addTask 1000 invalidInput initialState)) = 7.
Proof.
  cbn. repeat split; try reflexivity; try discriminate.
  intros [_ H]. lia.
Qed.

(** C1, as the code has it: [addTask] has no validation and no failure
    path.  For every input, whatever its required time and importance
    level, it returns a new task that carries the input's title, required
    time, deadline and importance level, with the clock's reading as id and
    creation time, and the repository afterwards is the repository before
    with that one task appended; the available time is untouched. *)
Theorem addTask_always_succeeds (now : Z) (task : TaskInput) (s : State) :
  let t := fst (addTask now task s) in
  let s' := snd (addTask now task s) in
  tasks s' = tasks s ++ [t] /\
  List.length (tasks s') = S (List.length (tasks s)) /\
  availableTime s' = availableTime s /\
  id t = now /\ createdAt t = now /\
  title t = in_title task /\ rt t = in_rt task /\
  idl t = in_idl task /\ il t = in_il task.
Proof.
  cbn. repeat split.
  rewrite length_app. cbn. lia.
Qed.

(** *** catastrophicWipeOut *)

Lemma tasks_catastrophicWipeOut (s : State) :
  tasks (catastrophicWipeOut s) = filter (fun t => il t =? 1) (tasks s).
Proof. reflexivity. Qed.

Lemma In_catastrophicWipeOut (s : State) (t : Task) :
  In t (tasks (catastrophicWipeOut s)) <-> In t (tasks s) /\ il t = 1.
Proof.
  rewrite tasks_catastrophicWipeOut, filter_In, Z.eqb_eq. reflexivity.
Qed.

Lemma catastrophicWipeOut_idempotent (s : State) :
  catastrophicWipeOut (catastrophicWipeOut s) = catastrophicWipeOut s.
Proof.
  unfold catastrophicWipeOut, setTasks. cbn.
  rewrite ListFacts.filter_idempotent. reflexivity.
Qed.

(** C7: after [catastrophicWipeOut] the repository holds exactly the
    former tasks of importance level 1 (Must), in their former order: a
    task is kept if and only if it was there with level 1, every kept task
    has level 1, the tasks removed are those of another level, and a
    second call changes nothing. *)
Theorem catastrophicWipeOut_keeps_must (s : State) :
  let s' := catastrophicWipeOut s in
  (forall t, In t (tasks s') <->
             In t (tasks s) /\ il t = Constants.IMPORTANCE.MUST) /\
  Forall (fun t => il t = 1) (tasks s') /\
  (forall t, In t (tasks s) /\ ~ In t (tasks s') <->
             In t (tasks s) /\ il t <> 1) /\
  tasks s' = filter (fun t => il t =? 1) (tasks s) /\
  availableTime s' = availableTime s /\
  catastrophicWipeOut s' = s'.
Proof.
  cbv zeta. split; [|split; [|split; [|split; [|split]]]].
  - intro t. apply In_catastrophicWipeOut.
  - apply Forall_forall. intros t Ht.
    apply In_catastrophicWipeOut in Ht. tauto.
  - intro t. rewrite In_catastrophicWipeOut. tauto.
  - reflexivity.
  - reflexivity.
  - apply catastrophicWipeOut_idempotent.
Qed.

Example catastrophicWipeOut_example :
  map id (tasks (catastrophicWipeOut family)) = [1] /\
  catastrophicWipeOut (catastrophicWipeOut family) = catastrophicWipeOut family.
Proof. split; reflexivity. Qed.

(** *** updateTask *)

(** C9, counterexample: [updateTask(1, {id: 99, createdAt: 77})] on the
    repository that holds the task added at instant 1 leaves one task
    whose id is 99 and whose creation time is 77. *)
Lemma updateTask_overwrites_id_createdAt :
  map id (tasks oneTask) = [1] /\
  map createdAt (tasks oneTask) = [1] /\
  map id (tasks (updateTask 1 idUpdates oneTask)) = [99] /\
  map createdAt (tasks (updateTask 1 idUpdates oneTask)) = [77].
Proof. repeat split. Qed.

Lemma merge_id (task : Task) (updates : Updates) :
  u_id updates = None -> id (merge task updates) = id task.
Proof. intro H. cbn. rewrite H. reflexivity. Qed.

Lemma merge_createdAt (task : Task) (updates : Updates) :
  u_createdAt updates = None -> createdAt (merge task updates) = createdAt task.
Proof. intro H. cbn. rewrite H. reflexivity. Qed.

Lemma tasks_updateTask (taskId : Z) (updates : Updates) (s : State) :
  tasks (updateTask taskId updates s) = map (updateOne taskId updates) (tasks s).
Proof. reflexivity. Qed.

Lemma updateTask_map_field {A : Type} (f : Task -> A) (taskId : Z)
    (updates : Updates) (s : State) :
  (forall task, f (merge task updates) = f task) ->
  map f (tasks (updateTask taskId updates s)) = map f (tasks s).
Proof.
  intro H. rewrite tasks_updateTask, map_map. apply map_ext. intro task.
  unfold updateOne. destruct (id task =? taskId); auto.
Qed.

(** C9, as the code has it: [addTask] gives a task the clock's reading as
    [id] and [createdAt], and an [updateTask] call whose [updates] object
    carries neither an [id] key nor a [createdAt] key changes no task's
    [id] and no task's [createdAt], position by position. *)
Theorem updateTask_keeps_id_createdAt (taskId : Z) (updates : Updates)
    (s : State) :
  u_id updates = None ->
  u_createdAt updates = None ->
  map id (tasks (updateTask taskId updates s)) = map id (tasks s) /\
  map createdAt (tasks (updateTask taskId updates s))
    = map createdAt (tasks s) /\
  (forall now task,
      id (fst (addTask now task s)) = now /\
      createdAt (fst (addTask now task s)) = now).
Proof.
  intros Hid Hc. repeat split.
  - apply updateTask_map_field. intro; apply merge_id; assumption.
  - apply updateTask_map_field. intro; apply merge_createdAt; assumption.
Qed.

Lemma updateTask_keeps_id_createdAt_witness :
  map id (tasks (updateTask 1 formUpdates oneTask)) = map id (tasks oneTask) /\
  map createdAt (tasks (updateTask 1 formUpdates oneTask))
    = map createdAt (tasks oneTask) /\
  (forall now task,
      id (fst (addTask now task oneTask)) = now /\
      createdAt (fst (addTask now task oneTask)) = now).
Proof.
  apply (updateTask_keeps_id_createdAt 1 formUpdates oneTask); reflexivity.
Defined.

Lemma updateOne_other (taskId : Z) (updates : Updates) (task : Task) :
  id task <> taskId -> updateOne taskId updates task = task.
Proof.
  intro H. unfold updateOne. apply Z.eqb_neq in H. rewrite H. reflexivity.
Qed.

(** C10: [updateTask] neither inserts nor removes a task and moves none:
    the repository keeps its length, the task at each position afterwards
    is the task that was at that position, merged with [updates] when its
    id is [taskId] and the very same task otherwise; the available time is
    untouched, and when no task has the id [taskId] the state does not
    change at all. *)
Theorem updateTask_frame (taskId : Z) (updates : Updates) (s : State) :
  let s' := updateTask taskId updates s in
  List.length (tasks s') = List.length (tasks s) /\
  availableTime s' = availableTime s /\
  (forall i, nth_error (tasks s') i
             = option_map (updateOne taskId updates) (nth_error (tasks s) i)) /\
  (forall i t, nth_error (tasks s) i = Some t -> id t <> taskId ->
               nth_error (tasks s') i = Some t) /\
  ((forall t, In t (tasks s) -> id t <> taskId) -> s' = s).
Proof.
  cbv zeta. rewrite tasks_updateTask. repeat split.
  - apply length_map.
  - intro i. apply nth_error_map.
  - intros i t Hi Hne. rewrite nth_error_map, Hi. cbn.
    rewrite updateOne_other; auto.
  - intro H. destruct s as [ts a]. unfold updateTask, setTasks. cbn in *.
    f_equal. apply ListFacts.map_fixed.
    intros x Hx. apply updateOne_other. auto.
Qed.

Example updateTask_example :
  map id (tasks (updateTask 2 formUpdates family)) = [1; 2; 3; 4] /\
  map title (tasks (updateTask 2 formUpdates family))
    = ["parent"; "b"; "grandchild"; "other"]%string /\
  updateTask 5 formUpdates family = family.
Proof. repeat split. Qed.

(** *** deleteTask *)

Lemma tasks_deleteTask (taskId : Z) (s : State) :
  tasks (deleteTask taskId s)
  = filter (fun task => negb (id task =? taskId)) (tasks s).
Proof. reflexivity. Qed.

(** [deleteTask] keeps exactly the tasks whose own id differs from
    [taskId], each as it was. *)
Lemma In_deleteTask (taskId : Z) (s : State) (t : Task) :
  In t (tasks (deleteTask taskId s)) <-> In t (tasks s) /\ id t <> taskId.
Proof.
  rewrite tasks_deleteTask, filter_In, negb_true_iff, Z.eqb_neq. tauto.
Qed.

End PlanningContextFacts.

(** ** The daily plan's delete handler *)

Module DailyPlanFacts.
Import PlanningContext DailyPlan Spec Samples.

(** C2, counterexample: the confirmed [handleDelete(1)] on the family
    removes task 1 alone.  Its subtask 2 and that one's subtask 3, both
    descendants of 1, survive; task 2 still names the deleted task 1 as
    its parent, and task 4 still links to it. *)
Lemma handleDelete_leaves_subtasks :
  let s' := handleDelete true 1 family in
  map id (tasks s') = [2; 3; 4] /\
  map parentTaskId (tasks s') = [Some 1; Some 2; None] /\
  map linksTo (tasks s') = [[]; []; [1]] /\
  (exists t, In t (tasks s') /\ id t = 3 /\ descendant (tasks family) 1 t) /\
  (exists t, In t (tasks s') /\ parentTaskId t = Some 1) /\
  (exists t, In t (tasks s') /\ In 1 (linksTo t)).
Proof.
  cbv zeta. repeat apply conj; try reflexivity.
  - exists (mkTask 3 "grandchild" 1 100 2 3 (Some 2) []).
    split; [cbn; tauto|]. split; [reflexivity|].
    apply descendant_step with (p := mkTask 2 "child" 1 100 2 2 (Some 1) []).
    + apply descendant_child; [cbn; tauto | reflexivity].
    + cbn; tauto.
    + reflexivity.
  - exists (mkTask 2 "child" 1 100 2 2 (Some 1) []). cbn. tauto.
  - exists (mkTask 4 "other" 1 100 3 4 None [1]). cbn. tauto.
Qed.

(** C2, as the code has it by design: the confirmed [handleDelete]
    removes every task whose id is [taskId]; every task that remains was
    in the repository, with another id, and is unchanged in all its
    fields; every task with another id that is not a descendant of
    [taskId] remains, so that a link from such a task to [taskId] is not
    pruned.  The declined [handleDelete] changes nothing.  Nothing is
    said here of the descendants. *)
Theorem handleDelete_removes_task (taskId : Z) (s : State) :
  let s' := handleDelete true taskId s in
  (forall t, In t (tasks s') -> In t (tasks s) /\ id t <> taskId) /\
  (forall t, In t (tasks s) -> id t <> taskId ->
             ~ descendant (tasks s) taskId t -> In t (tasks s')) /\
  (forall t, In t (tasks s) -> id t <> taskId ->
             ~ descendant (tasks s) taskId t -> In taskId (linksTo t) ->
             exists t', In t' (tasks s') /\ id t' = id t /\
                        In taskId (linksTo t')) /\
  availableTime s' = availableTime s /\
  handleDelete false taskId s = s.
Proof.
  cbv zeta. unfold handleDelete. repeat apply conj; try reflexivity.
  - intros t Ht. apply PlanningContextFacts.In_deleteTask. exact Ht.
  - intros t Ht Hne _. apply PlanningContextFacts.In_deleteTask. auto.
  - intros t Ht Hne _ Hl. exists t. repeat split; auto.
    apply PlanningContextFacts.In_deleteTask. auto.
Qed.

End DailyPlanFacts.

(** ** Array.prototype.sort with a consistent comparator *)

Module ArraySortFacts.
Import ArraySort.

Section Comparator.

Variable A : Type.
Variable compareFn : A -> A -> Z.

(** [a] may stand before [b]. *)
Let before (a b : A) : Prop := compareFn a b <= 0.

(** The comparator is consistent: of two elements one may stand before the
    other, and standing before is transitive. *)
Hypothesis before_total : forall a b, before a b \/ before b a.
Hypothesis before_trans : forall a b c, before a b -> before b c -> before a c.

Lemma insert_perm (x : A) (l : list A) :
  Permutation (insert compareFn x l) (x :: l).
Proof.
  induction l as [|y l IH]; cbn; [reflexivity|].
  destruct (compareFn x y <=? 0); [reflexivity|].
  rewrite IH. apply perm_swap.
Qed.

Lemma sort_perm (l : list A) : Permutation (sort compareFn l) l.
Proof.
  induction l as [|x l IH]; cbn; [reflexivity|].
  rewrite insert_perm. apply perm_skip, IH.
Qed.

Lemma insert_hd (x y : A) (l : list A) :
  before y x -> HdRel before y l -> HdRel before y (insert compareFn x l).
Proof.
  intros Hyx Hl. destruct l as [|z l]; cbn.
  - constructor. exact Hyx.
  - destruct (compareFn x z <=? 0); constructor; [exact Hyx|].
    inversion Hl; assumption.
Qed.

Lemma insert_sorted (x : A) (l : list A) :
  Sorted before l -> Sorted before (insert compareFn x l).
Proof.
  induction l as [|y l IH]; cbn; intro Hs.
  - repeat constructor.
  - destruct (compareFn x y <=? 0) eqn:E.
    + constructor; [exact Hs|]. constructor. apply Z.leb_le. exact E.
    + inversion Hs as [|? ? Hl Hh]; subst.
      constructor; [apply IH; exact Hl|].
      apply insert_hd; [|exact Hh].
      destruct (before_total x y) as [H|H]; [|exact H].
      apply Z.leb_le in H. congruence.
Qed.

Lemma sort_sorted (l : list A) :
  StronglySorted (fun a b => compareFn a b <= 0) (sort compareFn l).
Proof.
  apply Sorted_StronglySorted.
  - intros a b c. apply before_trans.
  - induction l as [|x l IH]; cbn; [constructor|].
    apply insert_sorted, IH.
Qed.

(** Stability, for a class [p] of elements that the comparator does not
    order after one another: inserting keeps the class in its order. *)
Lemma filter_insert (p : A -> bool) (x : A) (l : list A) :
  (forall y, p x = true -> p y = true -> compareFn x y <= 0) ->
  filter p (insert compareFn x l) = filter p (x :: l).
Proof.
  intro Hp. induction l as [|y l IH]; [reflexivity|].
  cbn [insert]. destruct (compareFn x y <=? 0) eqn:E; [reflexivity|].
  cbn [filter] in *. rewrite IH.
  destruct (p x) eqn:Ex, (p y) eqn:Ey; try reflexivity.
  specialize (Hp y eq_refl Ey). apply Z.leb_le in Hp. congruence.
Qed.

Lemma filter_sort (p : A -> bool) (l : list A) :
  (forall x y, p x = true -> p y = true -> compareFn x y <= 0) ->
  filter p (sort compareFn l) = filter p l.
Proof.
  intro Hp. induction l as [|x l IH]; [reflexivity|].
  cbn [sort fold_right]. rewrite filter_insert; [|intro y; apply Hp].
  cbn [filter]. fold (sort compareFn l). rewrite IH. reflexivity.
Qed.

End Comparator.

End ArraySortFacts.

(** ** The dashboard *)

Module DashboardFacts.
Import PlanningContext Dashboard Spec Samples.

(** *** The display order *)

Lemma compareTasks_order (a b : Task) :
  compareTasks a b <= 0 <-> displayOrder a b.
Proof.
  unfold compareTasks, displayOrder, JS.newDate.
  destruct (il a =? il b) eqn:E; cbn.
  - apply Z.eqb_eq in E. lia.
  - apply Z.eqb_neq in E. lia.
Qed.

Lemma compareTasks_total (a b : Task) :
  compareTasks a b <= 0 \/ compareTasks b a <= 0.
Proof. rewrite !compareTasks_order. unfold displayOrder. lia. Qed.

Lemma compareTasks_trans (a b c : Task) :
  compareTasks a b <= 0 -> compareTasks b c <= 0 -> compareTasks a c <= 0.
Proof. rewrite !compareTasks_order. unfold displayOrder. lia. Qed.

Lemma compareTasks_same_keys (i d : Z) (a b : Task) :
  hasKeys i d a = true -> hasKeys i d b = true -> compareTasks a b <= 0.
Proof.
  unfold hasKeys. rewrite !andb_true_iff, !Z.eqb_eq.
  intros [Ha1 Ha2] [Hb1 Hb2]. apply compareTasks_order.
  unfold displayOrder. lia.
Qed.

(** C8: [sortedTasks] is a rearrangement of its input in which every task
    stands before every later one in the order "importance level
    ascending, then deadline ascending", and it is stable: for every pair
    of keys, the tasks that have that importance level and that deadline
    come out in the order in which they came in. *)
Theorem sortedTasks_ordered_stable (todayTasks : list Task) :
  Permutation (sortedTasks todayTasks) todayTasks /\
  StronglySorted displayOrder (sortedTasks todayTasks) /\
  (forall i d,
      filter (hasKeys i d) (sortedTasks todayTasks)
      = filter (hasKeys i d) todayTasks).
Proof.
  unfold sortedTasks. split; [|split].
  - apply ArraySortFacts.sort_perm.
  - assert (H := ArraySortFacts.sort_sorted compareTasks compareTasks_total
                   compareTasks_trans todayTasks).
    induction H as [|a l Hl IH Ha]; constructor; [exact IH|].
    eapply Forall_impl; [|exact Ha].
    intros b Hb. apply compareTasks_order. exact Hb.
  - intros i d. apply ArraySortFacts.filter_sort.
    intros x y. apply compareTasks_same_keys.
Qed.

(** Four tasks of which the first and the third have the same keys. *)
Example sortedTasks_example :
  map id
    (sortedTasks
       [ mkTask 1 "a" 1 500 2 0 None [];
         mkTask 2 "b" 1 900 1 0 None [];
         mkTask 3 "c" 1 500 2 0 None [];
         mkTask 4 "d" 1 100 2 0 None [] ])
  = [2; 4; 1; 3].
Proof. reflexivity. Qed.

(** *** The realism point *)

Lemma startOfDay_midnight (tz date : Z) :
  (startOfDay tz date + tz) mod JS.msPerDay = 0 /\
  startOfDay tz date <= date < startOfDay tz date + JS.msPerDay.
Proof.
  unfold startOfDay, JS.msPerDay.
  assert (H := Z.mod_pos_bound (date + tz) 86400000 eq_refl).
  split; [|lia].
  replace (date - (date + tz) mod 86400000 + tz)
    with ((date + tz) - (date + tz) mod 86400000) by lia.
  rewrite Zminus_mod, Zmod_mod, Z.sub_diag. reflexivity.
Qed.

Lemma reduce_totalRequiredTime (T : list Task) (acc : Q) :
  (fold_left (fun sum task => sum + rt task) T acc
   == acc + totalRequiredTime T)%Q.
Proof.
  revert acc. induction T as [|t T IH]; intro acc; cbn.
  - ring.
  - rewrite IH. ring.
Qed.

Lemma realismPoint_positive (T : list Task) (a : Q) :
  (0 < a)%Q -> (realismPoint T a == totalRequiredTime T / a)%Q.
Proof.
  intro Ha. unfold realismPoint.
  destruct (Qlt_le_dec 0 a) as [_|H]; [|lra].
  rewrite reduce_totalRequiredTime. field. lra.
Qed.

Lemma realismPoint_not_positive (T : list Task) (a : Q) :
  ~ (0 < a)%Q -> realismPoint T a = 0%Q.
Proof.
  intro Ha. unfold realismPoint.
  destruct (Qlt_le_dec 0 a) as [H|_]; [contradiction|reflexivity].
Qed.

Lemma In_getTasksForDate (tz : Z) (s : State) (date : Z) (t : Task) :
  In t (getTasksForDate tz s date) <->
  In t (tasks s) /\
  startOfDay tz date <= idl t < startOfDay tz date + JS.msPerDay.
Proof.
  unfold getTasksForDate, JS.setHours0, JS.setDateNext, JS.newDate, startOfDay.
  rewrite filter_In, andb_true_iff, Z.leb_le, Z.ltb_lt. tauto.
Qed.

(** C4: the tasks of a date are the tasks, in repository order, whose
    deadline lies in the day that starts at the local midnight of the date
    and lasts one day; on them the realism point is the sum of the
    required times divided by the available time when that is positive,
    and 0 when it is not.  A total of 6 hours against 8 available gives
    0.75, and no available time gives 0 whatever the tasks. *)
Theorem realismPoint_formula (tz : Z) (s : State) (date : Z) :
  let T := getTasksForDate tz s date in
  let a := availableTime s in
  T = filter (fun t => (startOfDay tz date <=? idl t)
                       && (idl t <? startOfDay tz date + JS.msPerDay))
             (tasks s) /\
  (forall t, In t T <->
             In t (tasks s) /\
             startOfDay tz date <= idl t < startOfDay tz date + JS.msPerDay) /\
  ((0 < a)%Q -> (realismPoint T a == totalRequiredTime T / a)%Q) /\
  (~ (0 < a)%Q -> realismPoint T a = 0%Q) /\
  ((totalRequiredTime T == 6)%Q -> (a == 8)%Q ->
   (realismPoint T a == 0.75)%Q) /\
  ((a == 0)%Q -> realismPoint T a = 0%Q).
Proof.
  cbv zeta. repeat apply conj.
  - reflexivity.
  - intro t. apply In_getTasksForDate.
  - apply realismPoint_positive.
  - apply realismPoint_not_positive.
  - intros H6 H8. rewrite realismPoint_positive by lra.
    rewrite H6, H8. reflexivity.
  - intro H0. apply realismPoint_not_positive. lra.
Qed.

(** On the busy day, seen from the third day in UTC: the two tasks due
    that day count, 6 h against 8 h, which is Safe; with no available time
    the realism point is 0. *)
Example realismPoint_example :
  let today := getTodayTasks 0 (3 * JS.msPerDay + 5000) busyDay in
  map id today = [1; 2] /\
  (realismPoint today (availableTime busyDay) == 0.75)%Q /\
  getRPStatus (realismPoint today (availableTime busyDay)) = Safe /\
  realismPoint today 0 = 0%Q /\
  (realismPoint today 6 == 1)%Q /\
  getRPStatus (realismPoint today 6) = Overload.
Proof. cbv zeta. repeat split. Qed.

(** *** The zones *)

(** C5: the status is Safe exactly when the realism point is below 0.8,
    Risky exactly when it is at least 0.8 and below 1.0, and Overload
    exactly when it is at least 1.0; 0.8 itself is Risky and 1.0 itself is
    Overload. *)
Theorem getRPStatus_zones (rp : Q) :
  (getRPStatus rp = Safe <-> (rp < 0.8)%Q) /\
  (getRPStatus rp = Risky <-> (0.8 <= rp)%Q /\ (rp < 1.0)%Q) /\
  (getRPStatus rp = Overload <-> (1.0 <= rp)%Q) /\
  getRPStatus 0.8 = Risky /\
  getRPStatus 1.0 = Overload.
Proof.
  unfold getRPStatus, Constants.RP_LIMITS.SAFE, Constants.RP_LIMITS.RISKY.
  repeat apply conj; try reflexivity;
    destruct (Qlt_le_dec rp 0.8) as [H1|H1];
    destruct (Qlt_le_dec rp 1.0) as [H2|H2];
    try (intro; discriminate); try (intro; reflexivity);
    try (intro; assumption); try (intro; lra);
    try (intro; split; assumption); try (intros [? ?]; lra).
Qed.

(** *** The CWA button *)

(** The confirmed click does what [catastrophicWipeOut] does, also when
    the handler returns early because every task is a Must. *)
Lemma handleCWA_confirmed (s : State) :
  handleCWA true s = catastrophicWipeOut s.
Proof.
  unfold handleCWA.
  destruct (filter (fun task => negb (il task =? Constants.IMPORTANCE.MUST))
              (tasks s)) as [|t l] eqn:E; cbn; [|reflexivity].
  destruct s as [ts a]. unfold catastrophicWipeOut, setTasks. cbn in *.
  rewrite ListFacts.filter_all; auto.
Qed.

End DashboardFacts.

(** ** Observations: the buffer and the conversion *)

Module ObservationsFacts.
Import ObservationsContext Observations Samples.

(** *** Days remaining *)

(** C6: for the whole number [d] of days elapsed between the creation of
    the observation and [now] (the floor of the elapsed time in days), the
    days remaining are [bufferDays - d] clamped at 0, never negative, with
    [bufferDays] the constant 2. *)
Theorem getDaysRemaining_formula (observation : Observation) (now d : Z) :
  d * JS.msPerDay <= now - o_createdAt observation < (d + 1) * JS.msPerDay ->
  getDaysRemaining observation now
    = Z.max 0 (Constants.OBSERVATION_BUFFER_DAYS - d) /\
  Constants.OBSERVATION_BUFFER_DAYS = 2 /\
  0 <= getDaysRemaining observation now /\
  (getDaysRemaining observation now = 0 <-> 2 <= d).
Proof.
  intro Hd. unfold getDaysRemaining, Constants.OBSERVATION_BUFFER_DAYS.
  assert (E : (now - o_createdAt observation) / JS.msPerDay = d).
  { symmetry. apply Z.div_unique with
      (r := now - o_createdAt observation - d * JS.msPerDay);
      unfold JS.msPerDay in *; lia. }
  rewrite E. repeat split; lia.
Qed.

Lemma getDaysRemaining_formula_witness :
  getDaysRemaining caught 129600000
    = Z.max 0 (Constants.OBSERVATION_BUFFER_DAYS - 1) /\
  Constants.OBSERVATION_BUFFER_DAYS = 2 /\
  0 <= getDaysRemaining caught 129600000 /\
  (getDaysRemaining caught 129600000 = 0 <-> 2 <= 1).
Proof.
  apply (getDaysRemaining_formula caught 129600000 1).
  unfold JS.msPerDay. cbn. lia.
Defined.

Example getDaysRemaining_examples :
  getDaysRemaining caught 0 = 2 /\
  getDaysRemaining caught (JS.msPerDay - 1) = 2 /\
  getDaysRemaining caught JS.msPerDay = 1 /\
  getDaysRemaining caught (2 * JS.msPerDay - 1) = 1 /\
  getDaysRemaining caught (2 * JS.msPerDay) = 0 /\
  getDaysRemaining caught (10 * JS.msPerDay) = 0 /\
  phase (2 * JS.msPerDay - 1) caught = InBuffer /\
  phase (2 * JS.msPerDay) caught = ReadyForAnalysis.
Proof. repeat split. Qed.

(** *** Conversion to a task *)



Section Handler.

Variable parseFloatText : string -> Q.
Variable dateOfText : string -> Z.

(** The handler when nothing is selected, and when a required field is
    missing: neither repository changes. *)
Lemma handleConvertToTask_nothing_selected (now : Z) (w : World) :
  selectedObservation w = None ->
  exec (handleConvertToTask parseFloatText dateOfText now) w = w.
Proof.
  intro H. unfold exec, handleConvertToTask, bind, read. rewrite H.
  reflexivity.
Qed.



End Handler.



(** The handler at work: a complete form converts, a form without a
    required time or with a blank title changes neither repository. *)
Example handleConvertToTask_examples :
  let h := exec (handleConvertToTask (fun _ => 1.5%Q)
                   (fun _ => 1714557600000) 5000) in
  map PlanningContext.title
      (PlanningContext.tasks (planning (h (world0 filledForm))))
    = ["write report"%string] /\
  map convertedTaskId (observations (observing (h (world0 filledForm))))
    = [Some 5000] /\
  map status (observations (observing (h (world0 filledForm)))) = [analyzed] /\
  planning (h (world0 (mkTaskFormData "x" EmptyString "d" 2)))
    = PlanningContext.initialState /\
  observing (h (world0 (mkTaskFormData "x" EmptyString "d" 2)))
    = mkState [caught] /\
  planning (h (world0 (mkTaskFormData "   " "1" "d" 2)))
    = PlanningContext.initialState.
Proof. repeat split. Qed.

End ObservationsFacts.

(** ** Further properties of the task repository *)

Module RepositoryFacts.
Import PlanningContext Calendar.

(** *** The tasks of a day *)

Lemma startOfDay_window (tz date x : Z) :
  JS.setHours0 tz date <= x < JS.setDateNext (JS.setHours0 tz date) <->
  localDay tz x = localDay tz date.
Proof.
  unfold JS.setHours0, JS.setDateNext, localDay, JS.msPerDay.
  assert (Hd := Z.div_mod (date + tz) 86400000 ltac:(lia)).
  assert (Hb := Z.mod_pos_bound (date + tz) 86400000 eq_refl).
  assert (Hx := Z.div_mod (x + tz) 86400000 ltac:(lia)).
  assert (Hc := Z.mod_pos_bound (x + tz) 86400000 eq_refl).
  split; intro H; [|lia].
  symmetry. apply Z.div_unique with (r := x + tz - 86400000 * ((date + tz) / 86400000)); lia.
Qed.

Lemma In_getTasksForDate_day (tz : Z) (s : State) (date : Z) (t : Task) :
  In t (getTasksForDate tz s date) <->
  In t (tasks s) /\ localDay tz (idl t) = localDay tz date.
Proof.
  unfold getTasksForDate, JS.newDate.
  rewrite filter_In, andb_true_iff, Z.leb_le, Z.ltb_lt, startOfDay_window.
  reflexivity.
Qed.

Lemma window_bool (tz date x : Z) :
  (JS.setHours0 tz date <=? x) && (x <? JS.setDateNext (JS.setHours0 tz date))
  = (localDay tz x =? localDay tz date).
Proof.
  apply Bool.eq_iff_eq_true.
  rewrite andb_true_iff, Z.leb_le, Z.ltb_lt, Z.eqb_eq.
  apply startOfDay_window.
Qed.

Lemma getTasksForDate_filter (tz : Z) (s : State) (date : Z) :
  getTasksForDate tz s date
  = filter (fun t => localDay tz (idl t) =? localDay tz date) (tasks s).
Proof.
  unfold getTasksForDate, JS.newDate. apply filter_ext.
  intro t. apply window_bool.
Qed.

(** X1: [getTasksForDate] selects by local calendar day: a task is listed
    for a date exactly when its deadline falls on the same local day as the
    date, so two dates of one local day give the same list, and a task is
    never listed for dates of two different days. *)
Theorem getTasksForDate_by_local_day (tz : Z) (s : State) (date : Z) :
  (forall t, In t (getTasksForDate tz s date) <->
             In t (tasks s) /\ localDay tz (idl t) = localDay tz date) /\
  (forall date', localDay tz date' = localDay tz date ->
                 getTasksForDate tz s date' = getTasksForDate tz s date) /\
  (forall date' t, In t (getTasksForDate tz s date) ->
                   In t (getTasksForDate tz s date') ->
                   localDay tz date' = localDay tz date).
Proof.
  split; [|split].
  - intro t. apply In_getTasksForDate_day.
  - intros date' H. rewrite !getTasksForDate_filter, H. reflexivity.
  - intros date' t H1 H2.
    apply In_getTasksForDate_day in H1. apply In_getTasksForDate_day in H2.
    destruct H1 as [_ H1], H2 as [_ H2]. congruence.
Qed.

(** *** Adding and deleting *)

Lemma filter_true {A : Type} (p : A -> bool) (l : list A) :
  (forall x, In x l -> p x = true) -> filter p l = l.
Proof.
  induction l as [|x l IH]; cbn; intro H; [reflexivity|].
  rewrite (H x (or_introl eq_refl)), IH; auto.
Qed.

Lemma filter_comm {A : Type} (p q : A -> bool) (l : list A) :
  filter p (filter q l) = filter q (filter p l).
Proof.
  induction l as [|x l IH]; cbn; [reflexivity|].
  destruct (p x) eqn:Ep, (q x) eqn:Eq; cbn; rewrite ?Ep, ?Eq, IH; reflexivity.
Qed.

Lemma deleteTask_absent (taskId : Z) (s : State) :
  (forall t, In t (tasks s) -> id t <> taskId) -> deleteTask taskId s = s.
Proof.
  intro H. destruct s as [ts a]. unfold deleteTask, setTasks. cbn in *.
  f_equal. apply filter_true. intros x Hx.
  apply negb_true_iff, Z.eqb_neq. auto.
Qed.

(** X2: deleting the task that was just added restores the state, when no
    older task has the id the clock gave to the new one. *)
Theorem addTask_deleteTask_round_trip (now : Z) (task : TaskInput) (s : State) :
  (forall t, In t (tasks s) -> id t <> now) ->
  deleteTask (id (fst (addTask now task s))) (snd (addTask now task s)) = s.
Proof.
  intro H. destruct s as [ts a]. unfold deleteTask, addTask, setTasks.
  cbn in *. f_equal. rewrite filter_app. cbn. rewrite Z.eqb_refl. cbn.
  rewrite app_nil_r. apply filter_true. intros x Hx.
  apply negb_true_iff, Z.eqb_neq. auto.
Qed.

Lemma addTask_deleteTask_round_trip_witness :
  deleteTask (id (fst (addTask 5 Samples.invalidInput Samples.family)))
    (snd (addTask 5 Samples.invalidInput Samples.family))
  = Samples.family.
Proof.
  apply (@addTask_deleteTask_round_trip 5 Samples.invalidInput Samples.family).
  cbn. intros t [H|[H|[H|[H|[]]]]]; subst t; cbn; lia.
Defined.

(** X3: the id is the clock's reading, so two tasks added in the same
    millisecond have the same id; one [deleteTask] then removes both, and
    one [updateTask] rewrites both. *)
Theorem addTask_same_instant (now : Z) (a b : TaskInput) (updates : Updates)
    (s : State) :
  let s1 := snd (addTask now a s) in
  let s2 := snd (addTask now b s1) in
  id (fst (addTask now a s)) = id (fst (addTask now b s1)) /\
  tasks (deleteTask now s2) = tasks (deleteTask now s) /\
  tasks (updateTask now updates s2)
  = tasks (updateTask now updates s)
    ++ [merge (newTask now a) updates; merge (newTask now b) updates].
Proof.
  cbv zeta. split; [reflexivity|]. split.
  - unfold deleteTask, addTask, setTasks. cbn.
    rewrite !filter_app. cbn. rewrite Z.eqb_refl. cbn.
    rewrite !app_nil_r. reflexivity.
  - unfold updateTask, addTask, setTasks. cbn.
    rewrite !map_app. cbn. unfold updateOne at 2 3. cbn.
    rewrite Z.eqb_refl, <- app_assoc. reflexivity.
Qed.

(** X4: [deleteTask] with an id that no task has changes nothing;
    deleting twice is deleting once; two deletions give the same state in
    either order; and a deletion never lengthens the repository. *)
Theorem deleteTask_algebra (a b : Z) (s : State) :
  ((forall t, In t (tasks s) -> id t <> a) -> deleteTask a s = s) /\
  deleteTask a (deleteTask a s) = deleteTask a s /\
  deleteTask a (deleteTask b s) = deleteTask b (deleteTask a s) /\
  (List.length (tasks (deleteTask a s)) <= List.length (tasks s))%nat.
Proof.
  split; [apply deleteTask_absent|]. split; [|split].
  - unfold deleteTask, setTasks. cbn.
    rewrite ListFacts.filter_idempotent. reflexivity.
  - unfold deleteTask, setTasks. cbn. f_equal. apply filter_comm.
  - apply filter_length_le.
Qed.

(** *** Updating *)

Lemma merge_noUpdates (task : Task) : merge task noUpdates = task.
Proof. destruct task. reflexivity. Qed.

Lemma merge_merge (task : Task) (updates : Updates) :
  merge (merge task updates) updates = merge task updates.
Proof.
  unfold merge. cbn.
  destruct updates as [[i|] [ti|] [r|] [d|] [l|] [c|] [p|] [k|]];
    reflexivity.
Qed.

Lemma updateOne_updateOne (taskId : Z) (updates : Updates) (task : Task) :
  updateOne taskId updates (updateOne taskId updates task)
  = updateOne taskId updates task.
Proof.
  unfold updateOne. destruct (id task =? taskId) eqn:E.
  - destruct (id (merge task updates) =? taskId);
      [apply merge_merge | reflexivity].
  - rewrite E. reflexivity.
Qed.

(** X5: an [updateTask] with the empty object changes nothing, and
    applying the same update twice is applying it once, also when the
    update rewrites the id. *)
Theorem updateTask_empty_idempotent (taskId : Z) (updates : Updates)
    (s : State) :
  updateTask taskId noUpdates s = s /\
  updateTask taskId updates (updateTask taskId updates s)
  = updateTask taskId updates s.
Proof.
  split.
  - destruct s as [ts a]. unfold updateTask, setTasks. cbn. f_equal.
    apply ListFacts.map_fixed. intros x _. unfold updateOne.
    destruct (id x =? taskId); [apply merge_noUpdates | reflexivity].
  - unfold updateTask, setTasks. cbn. f_equal. rewrite map_map.
    apply map_ext. intro t. apply updateOne_updateOne.
Qed.

Lemma merge_keeps_id (task : Task) (updates : Updates) :
  u_id updates = None -> id (merge task updates) = id task.
Proof. intro H. cbn. rewrite H. reflexivity. Qed.

Lemma updateOne_commute (a b : Z) (u v : Updates) (task : Task) :
  a <> b -> u_id u = None -> u_id v = None ->
  updateOne a u (updateOne b v task) = updateOne b v (updateOne a u task).
Proof.
  intros Hab Hu Hv. unfold updateOne.
  destruct (id task =? a) eqn:Ea, (id task =? b) eqn:Eb;
    rewrite ?merge_keeps_id, ?Ea, ?Eb by assumption; try reflexivity.
  apply Z.eqb_eq in Ea, Eb. congruence.
Qed.

(** X25: two updates of tasks with different ids, neither of which
    rewrites an id, give the same state in either order. *)
Theorem updateTask_commute (a b : Z) (u v : Updates) (s : State) :
  a <> b -> u_id u = None -> u_id v = None ->
  updateTask a u (updateTask b v s) = updateTask b v (updateTask a u s).
Proof.
  intros Hab Hu Hv. unfold updateTask, setTasks. cbn. f_equal.
  rewrite !map_map. apply map_ext. intro t.
  apply updateOne_commute; assumption.
Qed.

Lemma updateTask_commute_witness :
  updateTask 1 Samples.formUpdates
    (updateTask 2 (Samples.parentUpdate 1) Samples.family)
  = updateTask 2 (Samples.parentUpdate 1)
      (updateTask 1 Samples.formUpdates Samples.family).
Proof.
  apply (@updateTask_commute 1 2 Samples.formUpdates (Samples.parentUpdate 1)
           Samples.family); [lia | reflexivity | reflexivity].
Defined.

(** X26: a task that is added shows up in the list of exactly those
    dates that share the local day of its deadline, at the end of the
    list; the lists of all other dates stay as they were. *)
Theorem getTasksForDate_addTask (tz now : Z) (task : TaskInput) (s : State)
    (date : Z) :
  getTasksForDate tz (snd (addTask now task s)) date
  = getTasksForDate tz s date
    ++ (if localDay tz (in_idl task) =? localDay tz date
        then [fst (addTask now task s)] else []).
Proof.
  rewrite !getTasksForDate_filter. cbn [snd fst addTask tasks setTasks].
  rewrite filter_app. cbn [filter idl newTask]. unfold JS.newDate.
  destruct (localDay tz (in_idl task) =? localDay tz date); reflexivity.
Qed.

End RepositoryFacts.

(** ** Further properties of the dashboard *)

Module DashboardViewFacts.
Import PlanningContext Dashboard DashboardView Spec Calendar.

(** *** The realism point under removals *)

Lemma totalRequiredTime_nonneg (T : list Task) :
  Forall nonNegative T -> (0 <= totalRequiredTime T)%Q.
Proof.
  induction 1 as [|t T Ht _ IH]; cbn; [lra|].
  unfold nonNegative in Ht. lra.
Qed.

Lemma totalRequiredTime_filter (p : Task -> bool) (T : list Task) :
  Forall nonNegative T ->
  (totalRequiredTime (filter p T) <= totalRequiredTime T)%Q.
Proof.
  induction 1 as [|t T Ht _ IH]; cbn; [lra|].
  unfold nonNegative in Ht. destruct (p t); cbn; lra.
Qed.

Lemma Forall_filter {A : Type} (P : A -> Prop) (p : A -> bool) (l : list A) :
  Forall P l -> Forall P (filter p l).
Proof.
  intro H. apply Forall_forall. intros x Hx. apply filter_In in Hx.
  rewrite Forall_forall in H. apply H. tauto.
Qed.

Lemma realismPoint_le (T1 T2 : list Task) (a : Q) :
  (totalRequiredTime T1 <= totalRequiredTime T2)%Q ->
  (realismPoint T1 a <= realismPoint T2 a)%Q.
Proof.
  intro H. destruct (Qlt_le_dec 0 a) as [Ha|Ha].
  - rewrite !DashboardFacts.realismPoint_positive by exact Ha.
    unfold Qdiv. apply Qmult_le_compat_r; [exact H|].
    apply Qlt_le_weak, Qinv_lt_0_compat. exact Ha.
  - rewrite !DashboardFacts.realismPoint_not_positive by lra. lra.
Qed.

Lemma getTasksForDate_setTasks_filter (tz : Z) (p : Task -> bool) (s : State)
    (date : Z) :
  getTasksForDate tz (setTasks (filter p) s) date
  = filter p (getTasksForDate tz s date).
Proof.
  rewrite !RepositoryFacts.getTasksForDate_filter. cbn.
  apply RepositoryFacts.filter_comm.
Qed.

(** X6: when no task of the repository has a negative required time,
    neither [deleteTask] nor [catastrophicWipeOut] raises the realism point
    of any date, whatever the available time. *)
Theorem removal_never_raises_realismPoint (tz : Z) (s : State) (date : Z)
    (a : Q) (taskId : Z) :
  Forall nonNegative (tasks s) ->
  (realismPoint (getTasksForDate tz (deleteTask taskId s) date) a
   <= realismPoint (getTasksForDate tz s date) a)%Q /\
  (realismPoint (getTasksForDate tz (catastrophicWipeOut s) date) a
   <= realismPoint (getTasksForDate tz s date) a)%Q.
Proof.
  intro H.
  assert (Hd : Forall nonNegative (getTasksForDate tz s date)).
  { rewrite RepositoryFacts.getTasksForDate_filter. apply Forall_filter, H. }
  split; apply realismPoint_le.
  - unfold deleteTask. rewrite getTasksForDate_setTasks_filter.
    apply totalRequiredTime_filter, Hd.
  - unfold catastrophicWipeOut. rewrite getTasksForDate_setTasks_filter.
    apply totalRequiredTime_filter, Hd.
Qed.

Lemma removal_never_raises_realismPoint_witness :
  (realismPoint (getTasksForDate 0 (deleteTask 2 Samples.busyDay)
                   (3 * JS.msPerDay)) 8
   <= realismPoint (getTasksForDate 0 Samples.busyDay (3 * JS.msPerDay)) 8)%Q /\
  (realismPoint (getTasksForDate 0 (catastrophicWipeOut Samples.busyDay)
                   (3 * JS.msPerDay)) 8
   <= realismPoint (getTasksForDate 0 Samples.busyDay (3 * JS.msPerDay)) 8)%Q.
Proof.
  apply (@removal_never_raises_realismPoint 0 Samples.busyDay
           (3 * JS.msPerDay) 8 2).
  repeat constructor; unfold nonNegative; cbn; discriminate.
Defined.

(** X7: the filtering operations compose in any order: the tasks of a
    date after a deletion or a wipe-out are the former tasks of that date,
    filtered the same way, and a deletion and a wipe-out commute. *)
Theorem removals_commute (tz : Z) (s : State) (date taskId : Z) :
  getTasksForDate tz (deleteTask taskId s) date
  = filter (fun task => negb (id task =? taskId)) (getTasksForDate tz s date) /\
  getTasksForDate tz (catastrophicWipeOut s) date
  = filter (fun task => il task =? 1) (getTasksForDate tz s date) /\
  catastrophicWipeOut (deleteTask taskId s)
  = deleteTask taskId (catastrophicWipeOut s).
Proof.
  split; [|split].
  - apply getTasksForDate_setTasks_filter.
  - apply getTasksForDate_setTasks_filter.
  - unfold catastrophicWipeOut, deleteTask, setTasks. cbn. f_equal.
    apply RepositoryFacts.filter_comm.
Qed.

(** *** The zones in hours *)

Lemma getRPStatus_cases (rp : Q) :
  ((rp < 0.8)%Q /\ getRPStatus rp = Safe) \/
  ((0.8 <= rp)%Q /\ (rp < 1)%Q /\ getRPStatus rp = Risky) \/
  ((1 <= rp)%Q /\ getRPStatus rp = Overload).
Proof.
  unfold getRPStatus, Constants.RP_LIMITS.SAFE, Constants.RP_LIMITS.RISKY.
  destruct (Qlt_le_dec rp 0.8) as [H1|H1]; [left; split; [lra|reflexivity]|].
  destruct (Qlt_le_dec rp 1.0) as [H2|H2].
  - right; left. repeat split; try reflexivity; lra.
  - right; right. split; [lra|reflexivity].
Qed.

Lemma realismPoint_times (T : list Task) (a : Q) :
  (0 < a)%Q -> (realismPoint T a * a == totalRequiredTime T)%Q.
Proof.
  intro Ha. rewrite DashboardFacts.realismPoint_positive by exact Ha.
  field. lra.
Qed.

(** X8: read in hours, with a positive available time the day is Safe
    exactly when the total required time is below 80 % of the available
    time, Risky from 80 % up to the available time, and Overload from the
    available time on; with an available time that is not positive the
    day is Safe whatever the tasks require. *)
Theorem status_in_hours (T : list Task) (a : Q) :
  ((0 < a)%Q ->
   (getRPStatus (realismPoint T a) = Safe
    <-> (totalRequiredTime T < 0.8 * a)%Q) /\
   (getRPStatus (realismPoint T a) = Risky
    <-> (0.8 * a <= totalRequiredTime T)%Q /\ (totalRequiredTime T < a)%Q) /\
   (getRPStatus (realismPoint T a) = Overload
    <-> (a <= totalRequiredTime T)%Q)) /\
  (~ (0 < a)%Q -> getRPStatus (realismPoint T a) = Safe).
Proof.
  split.
  - intro Ha. assert (E := realismPoint_times T Ha).
    set (rp := realismPoint T a) in *.
    assert (L1 : (rp < 0.8)%Q <-> (totalRequiredTime T < 0.8 * a)%Q).
    { rewrite <- E. split; intro H; nra. }
    assert (L2 : (rp < 1)%Q <-> (totalRequiredTime T < a)%Q).
    { rewrite <- E. split; intro H; nra. }
    destruct (getRPStatus_cases rp) as [[H1 ->]|[[H1 [H2 ->]]|[H1 ->]]];
      repeat split; intros; try discriminate; try reflexivity;
      try tauto; try (apply L1; tauto); try (apply L2; tauto);
      try (exfalso; (apply L1 in H1 || apply L2 in H2); lra);
      try (exfalso; assert (X : (rp < 0.8)%Q) by (apply L1; tauto); lra);
      try (exfalso; assert (X : (rp < 1)%Q) by (apply L2; tauto); lra);
      try (apply Qnot_lt_le; intro X; apply L1 in X; lra);
      try (apply Qnot_lt_le; intro X; apply L2 in X; lra).
  - intro Ha. rewrite DashboardFacts.realismPoint_not_positive by exact Ha.
    reflexivity.
Qed.

(** *** The message under the status *)

Lemma lt_spec (a b : Q) : lt a b = true <-> (a < b)%Q.
Proof.
  unfold lt. destruct (Qlt_le_dec a b) as [H|H]; split; intro X;
    try reflexivity; try assumption; try discriminate; lra.
Qed.

Lemma ge_spec (a b : Q) : ge a b = true <-> (b <= a)%Q.
Proof. unfold ge. apply Qle_bool_iff. Qed.

Lemma lt_false (a b : Q) : (b <= a)%Q -> lt a b = false.
Proof.
  intro H. destruct (lt a b) eqn:E; [|reflexivity].
  apply lt_spec in E. lra.
Qed.

Lemma ge_false (a b : Q) : (a < b)%Q -> ge a b = false.
Proof.
  intro H. destruct (ge a b) eqn:E; [|reflexivity].
  apply ge_spec in E. lra.
Qed.

Lemma lt_true (a b : Q) : (a < b)%Q -> lt a b = true.
Proof. apply lt_spec. Qed.

Lemma ge_true (a b : Q) : (b <= a)%Q -> ge a b = true.
Proof. apply ge_spec. Qed.

(** X9: under the status line the dashboard shows exactly one of its three
    paragraphs, and it is the one of the zone that [getRPStatus] reports:
    the realistic-plan note in the Safe zone, the tight-schedule warning in
    the Risky zone, the call for immediate action in Overload. *)
Theorem messages_match_status (rp : Q) :
  messages rp
  = [match getRPStatus rp with
     | Safe => RealisticPlan
     | Risky => TightSchedule
     | Overload => ImmediateAction
     end].
Proof.
  unfold messages, Constants.RP_LIMITS.OVERLOAD, Constants.RP_LIMITS.SAFE,
    Constants.RP_LIMITS.RISKY.
  destruct (getRPStatus_cases rp) as [[H1 ->]|[[H1 [H2 ->]]|[H1 ->]]].
  - rewrite (@ge_false rp 1.0), (@ge_false rp 0.8), (@lt_true rp 0.8)
      by lra. reflexivity.
  - rewrite (@ge_false rp 1.0), (@ge_true rp 0.8), (@lt_true rp 1.0),
      (@lt_false rp 0.8) by lra. reflexivity.
  - rewrite (@ge_true rp 1.0), (@ge_true rp 0.8), (@lt_false rp 1.0),
      (@lt_false rp 0.8) by lra. reflexivity.
Qed.

(** *** Sorting what is sorted *)

Lemma insert_first {A : Type} (compareFn : A -> A -> Z) (x : A) (l : list A) :
  HdRel (fun a b => compareFn a b <= 0) x l ->
  ArraySort.insert compareFn x l = x :: l.
Proof.
  intro H. destruct l as [|y l]; [reflexivity|]. cbn.
  inversion H as [|? ? Hxy]; subst. apply Z.leb_le in Hxy. rewrite Hxy.
  reflexivity.
Qed.

Lemma sort_sorted_id {A : Type} (compareFn : A -> A -> Z) (l : list A) :
  Sorted (fun a b => compareFn a b <= 0) l -> ArraySort.sort compareFn l = l.
Proof.
  induction 1 as [|x l Hl IH Hx]; [reflexivity|].
  cbn. fold (ArraySort.sort compareFn l). rewrite IH.
  apply insert_first. exact Hx.
Qed.

(** X10: [sortedTasks] does nothing to a list that is already in display
    order, so sorting twice is sorting once; and the first task shown has
    the smallest importance level of all, that is the most important
    one. *)
Theorem sortedTasks_idempotent_must_first (todayTasks : list Task) :
  sortedTasks (sortedTasks todayTasks) = sortedTasks todayTasks /\
  (forall first rest,
      sortedTasks todayTasks = first :: rest ->
      Forall (fun t => il first <= il t) todayTasks).
Proof.
  assert (S := ArraySortFacts.sort_sorted compareTasks
                 DashboardFacts.compareTasks_total
                 DashboardFacts.compareTasks_trans todayTasks).
  fold (sortedTasks todayTasks) in S. split.
  - unfold sortedTasks at 1. apply sort_sorted_id.
    apply StronglySorted_Sorted. exact S.
  - intros first rest E. rewrite E in S.
    assert (P : Permutation (first :: rest) todayTasks).
    { rewrite <- E. apply ArraySortFacts.sort_perm. }
    apply Forall_forall. intros t Ht.
    apply (Permutation_in _ (Permutation_sym P)) in Ht.
    destruct Ht as [<-|Ht]; [lia|].
    inversion S as [|? ? _ Hall]; subst.
    rewrite Forall_forall in Hall. specialize (Hall t Ht).
    apply DashboardFacts.compareTasks_order in Hall.
    unfold displayOrder in Hall. lia.
Qed.

(** *** The CWA button *)

Lemma filter_partition_length {A : Type} (p : A -> bool) (l : list A) :
  List.length l
  = (List.length (filter p l) + List.length (filter (fun x => negb (p x)) l))%nat.
Proof.
  induction l as [|x l IH]; cbn; [reflexivity|].
  destruct (p x); cbn; lia.
Qed.

(** X11: the CWA button changes the repository exactly as
    [catastrophicWipeOut] would when the click is confirmed, also when it
    stops early because nothing but Must tasks are left, and not at all
    when it is declined; the number it reports as removed is the number of
    tasks that disappeared, and it reports a removal only when at least one
    disappeared. *)
Theorem handleCWAClick_report (confirmed : bool) (s : State) :
  fst (handleCWAClick confirmed s) = handleCWA confirmed s /\
  fst (handleCWAClick true s) = catastrophicWipeOut s /\
  fst (handleCWAClick false s) = s /\
  (forall n, In (Executed n) (snd (handleCWAClick confirmed s)) ->
             (0 < n)%nat /\
             List.length (tasks s)
             = (List.length (tasks (fst (handleCWAClick confirmed s))) + n)%nat) /\
  (In NothingToWipe (snd (handleCWAClick confirmed s)) ->
   Forall (fun t => il t = 1) (tasks s)).
Proof.
  assert (K : fst (handleCWAClick true s) = catastrophicWipeOut s).
  { transitivity (handleCWA true s);
      [|apply DashboardFacts.handleCWA_confirmed].
    unfold handleCWAClick, handleCWA.
    destruct (Z.of_nat _ =? 0); reflexivity. }
  unfold handleCWAClick, handleCWA in *.
  set (non := filter (fun task => negb (il task =? Constants.IMPORTANCE.MUST))
                (tasks s)) in *.
  assert (L := filter_partition_length
                 (fun task => il task =? Constants.IMPORTANCE.MUST) (tasks s)).
  cbv beta in L. fold non in L.
  destruct (Z.of_nat (List.length non) =? 0) eqn:E.
  - split; [reflexivity|]. split; [exact K|].
    split; [reflexivity|]. split.
    + intros n [H|[]]. discriminate.
    + intros _. apply Z.eqb_eq in E.
      assert (N : non = []) by (destruct non; [reflexivity|cbn in E; lia]).
      apply Forall_forall. intros t Ht.
      destruct (il t =? 1) eqn:Et; [apply Z.eqb_eq; exact Et|].
      assert (X : In t non).
      { apply filter_In. split; [exact Ht|].
        unfold Constants.IMPORTANCE.MUST. rewrite Et. reflexivity. }
      rewrite N in X. destruct X.
  - apply Z.eqb_neq in E.
    split; [destruct confirmed; reflexivity|]. split; [exact K|].
    split; [reflexivity|]. split.
    + intros n H. destruct confirmed; cbn in H; [|destruct H].
      destruct H as [H|[]]. injection H as <-.
      split; [lia|]. cbn. exact L.
    + destruct confirmed; cbn; [intros [H|[]]; discriminate | intros []].
Qed.

(** *** Labels and colours *)

Lemma lookupOr_outside (il : Z) (o : list (Z * string)) (fallback : string) :
  Forall (fun kv => fst kv <> il) o -> lookupOr il o fallback = fallback.
Proof.
  unfold lookupOr. intro H.
  assert (E : lookup il o = None).
  { induction H as [|[k v] o Hk _ IH]; [reflexivity|]. cbn in *.
    apply Z.eqb_neq in Hk. rewrite Hk. exact IH. }
  rewrite E. reflexivity.
Qed.

(** X12: [getImportanceLabel] answers "Unknown" exactly for the levels
    outside 1..4 and gives the four levels four different labels; a level
    outside 1..4 is drawn in the colour of the Optional level. *)
Theorem importance_label_of_unknown_level (il : Z) :
  (getImportanceLabel il = "Unknown"%string <-> ~ (1 <= il <= 4)) /\
  (~ (1 <= il <= 4) ->
   getImportanceColor il = getImportanceColor Constants.IMPORTANCE.OPTIONAL) /\
  (forall il', 1 <= il <= 4 -> 1 <= il' <= 4 ->
               getImportanceLabel il = getImportanceLabel il' -> il = il').
Proof.
  assert (Out : ~ (1 <= il <= 4) ->
                getImportanceLabel il = "Unknown"%string /\
                getImportanceColor il
                = getImportanceColor Constants.IMPORTANCE.OPTIONAL).
  { intro H. unfold getImportanceLabel, getImportanceColor.
    rewrite (@lookupOr_outside il labels), (@lookupOr_outside il colors);
      [split; reflexivity| |];
      repeat constructor; cbn;
      unfold Constants.IMPORTANCE.MUST, Constants.IMPORTANCE.HIGH,
        Constants.IMPORTANCE.MEDIUM, Constants.IMPORTANCE.OPTIONAL; lia. }
  split; [|split].
  - split; [|apply Out].
    intros E H.
    assert (C : il = 1 \/ il = 2 \/ il = 3 \/ il = 4) by lia.
    destruct C as [-> | [-> | [-> | ->]]]; discriminate E.
  - apply Out.
  - intros il' H H' E.
    assert (C : il = 1 \/ il = 2 \/ il = 3 \/ il = 4) by lia.
    assert (C' : il' = 1 \/ il' = 2 \/ il' = 3 \/ il' = 4) by lia.
    destruct C as [-> | [-> | [-> | ->]]], C' as [-> | [-> | [-> | ->]]];
      try reflexivity; discriminate E.
Qed.

(** *** The available-time input *)

(** X13: the available-time input never touches the tasks; a text that is
    not a number sets the available time to 0, a number is taken as it is;
    and after an input that is not a positive number the realism point of
    every date is 0 and its status Safe, whatever the tasks require. *)
Theorem handleAvailableTimeChange_effect (value : option Q) (s : State) :
  let s' := handleAvailableTimeChange value s in
  tasks s' = tasks s /\
  (value = None -> availableTime s' = 0%Q) /\
  (forall v, value = Some v -> (availableTime s' == v)%Q) /\
  (forall tz date,
      (forall v, value = Some v -> (v <= 0)%Q) ->
      realismPoint (getTasksForDate tz s' date) (availableTime s') = 0%Q /\
      getRPStatus (realismPoint (getTasksForDate tz s' date) (availableTime s'))
      = Safe).
Proof.
  cbv zeta. unfold handleAvailableTimeChange, setAvailableTime. cbn.
  split; [reflexivity|]. split; [intros ->; reflexivity|]. split.
  - intros v ->. cbn. destruct (Qeq_bool v 0) eqn:E; [|reflexivity].
    apply Qeq_bool_iff in E. symmetry. exact E.
  - intros tz date H.
    assert (N : ~ (0 < orZero value)%Q).
    { destruct value as [v|]; cbn; [|lra].
      specialize (H v eq_refl).
      destruct (Qeq_bool v 0); lra. }
    rewrite DashboardFacts.realismPoint_not_positive by exact N.
    split; reflexivity.
Qed.

End DashboardViewFacts.

(** ** The daily plan: the list, the form and the parent choice *)

Module DailyPlanPageFacts.
Import PlanningContext FormText DailyPlanPage Calendar.

(** *** Which day the list shows *)

Lemma localDay_dateOfDayText (tz k : Z) :
  - JS.msPerDay < tz < JS.msPerDay ->
  localDay tz (dateOfDayText k) = if tz <? 0 then k - 1 else k.
Proof.
  unfold localDay, dateOfDayText, JS.msPerDay. intro H.
  destruct (tz <? 0) eqn:E.
  - apply Z.ltb_lt in E. symmetry.
    apply Z.div_unique with (r := tz + 86400000); lia.
  - apply Z.ltb_ge in E. symmetry.
    apply Z.div_unique with (r := tz); lia.
Qed.

Lemma shownOn_spec (tz k : Z) (t : Task) :
  shownOn tz k t = true <->
  localDay tz (idl t) = localDay tz (dateOfDayText k) /\
  truthyId (parentTaskId t) = false.
Proof.
  unfold shownOn, JS.newDate. cbv zeta.
  rewrite RepositoryFacts.window_bool, andb_true_iff, Z.eqb_eq,
    negb_true_iff. reflexivity.
Qed.

Lemma In_filteredTasks (tz : Z) (w : Page) (t : Task) :
  In t (filteredTasks tz w) <->
  In t (tasks (planning w)) /\ shownOn tz (selectedDate w) t = true.
Proof.
  unfold filteredTasks. rewrite <- filter_In. split; intro H.
  - eapply Permutation_in; [apply ArraySortFacts.sort_perm | exact H].
  - eapply Permutation_in;
      [apply Permutation_sym, ArraySortFacts.sort_perm | exact H].
Qed.

(** X14: the selected date is read as UTC midnight and then moved to the
    start of the local day.  So in a zone at or ahead of UTC the list shows
    the root tasks whose deadline falls on the selected local day, and in a
    zone behind UTC it shows those of the day before the selected one. *)
Theorem filteredTasks_day (tz : Z) (w : Page) (t : Task) :
  - JS.msPerDay < tz < JS.msPerDay ->
  (In t (filteredTasks tz w) <->
   In t (tasks (planning w)) /\
   truthyId (parentTaskId t) = false /\
   localDay tz (idl t)
   = if tz <? 0 then selectedDate w - 1 else selectedDate w).
Proof.
  intro H. rewrite In_filteredTasks, shownOn_spec,
    (localDay_dateOfDayText _ H). tauto.
Qed.

Lemma filteredTasks_day_witness :
  In (newTask 1 (mkTaskInput "a" 1 (2 * JS.msPerDay) 1))
     (filteredTasks (- 3600000)
        (mkPage (snd (addTask 1 (mkTaskInput "a" 1 (2 * JS.msPerDay) 1)
                        initialState))
           false None 3 None emptyFormData [])) <->
  In (newTask 1 (mkTaskInput "a" 1 (2 * JS.msPerDay) 1))
     (tasks (snd (addTask 1 (mkTaskInput "a" 1 (2 * JS.msPerDay) 1)
                    initialState))) /\
  truthyId (parentTaskId (newTask 1 (mkTaskInput "a" 1 (2 * JS.msPerDay) 1)))
  = false /\
  localDay (- 3600000) (idl (newTask 1 (mkTaskInput "a" 1 (2 * JS.msPerDay) 1)))
  = if - 3600000 <? 0 then 3 - 1 else 3.
Proof.
  apply (@filteredTasks_day (- 3600000)
           (mkPage (snd (addTask 1 (mkTaskInput "a" 1 (2 * JS.msPerDay) 1)
                           initialState))
              false None 3 None emptyFormData [])
           (newTask 1 (mkTaskInput "a" 1 (2 * JS.msPerDay) 1))).
  unfold JS.msPerDay. lia.
Defined.

(** X15: the page opens on the UTC day of the clock.  The local day whose
    tasks it then lists is the dashboard's day, or the day before it: the
    day before, in a zone at or ahead of UTC, while the local date is
    already one ahead of the UTC date, and in a zone behind UTC, while the
    local date and the UTC date are the same. *)
Theorem initialPage_day (tz now : Z) (s : State) (t : Task) :
  - JS.msPerDay < tz < JS.msPerDay ->
  let behind :=
    if tz <? 0 then 0 <=? now mod JS.msPerDay + tz
    else JS.msPerDay <=? now mod JS.msPerDay + tz in
  (In t (filteredTasks tz (initialPage now s)) <->
   In t (tasks s) /\
   truthyId (parentTaskId t) = false /\
   localDay tz (idl t) = localDay tz now - (if behind then 1 else 0)) /\
  (behind = false ->
   (In t (filteredTasks tz (initialPage now s)) <->
    In t (getTodayTasks tz now s) /\ truthyId (parentTaskId t) = false)).
Proof.
  intro H. cbv zeta.
  assert (D : localDay tz now
              - (if (if tz <? 0 then 0 <=? now mod JS.msPerDay + tz
                     else JS.msPerDay <=? now mod JS.msPerDay + tz)
                 then 1 else 0)
              = if tz <? 0 then dayTextOf now - 1 else dayTextOf now).
  { unfold localDay, dayTextOf, JS.msPerDay in *.
    assert (Hd := Z.div_mod now 86400000 ltac:(lia)).
    assert (Hb := Z.mod_pos_bound now 86400000 eq_refl).
    destruct (tz <? 0) eqn:E; [apply Z.ltb_lt in E | apply Z.ltb_ge in E].
    - destruct (0 <=? now mod 86400000 + tz) eqn:F;
        [apply Z.leb_le in F | apply Z.leb_gt in F].
      + replace ((now + tz) / 86400000) with (now / 86400000); [lia|].
        apply Z.div_unique with (r := now mod 86400000 + tz); lia.
      + replace ((now + tz) / 86400000) with (now / 86400000 - 1); [lia|].
        apply Z.div_unique with (r := now mod 86400000 + tz + 86400000); lia.
    - destruct (86400000 <=? now mod 86400000 + tz) eqn:F;
        [apply Z.leb_le in F | apply Z.leb_gt in F].
      + replace ((now + tz) / 86400000) with (now / 86400000 + 1); [lia|].
        apply Z.div_unique with (r := now mod 86400000 + tz - 86400000); lia.
      + replace ((now + tz) / 86400000) with (now / 86400000); [lia|].
        apply Z.div_unique with (r := now mod 86400000 + tz); lia. }
  split.
  - rewrite In_filteredTasks, shownOn_spec, (localDay_dateOfDayText _ H).
    cbn. rewrite D. tauto.
  - intro B. rewrite B in D.
    rewrite In_filteredTasks, shownOn_spec, (localDay_dateOfDayText _ H).
    cbn. unfold getTodayTasks, JS.newDate.
    rewrite RepositoryFacts.In_getTasksForDate_day, <- D.
    replace (localDay tz now - 0) with (localDay tz now) by lia. tauto.
Qed.

Lemma initialPage_day_witness :
  let tz := 3600000 in
  let now := 84600000 in
  let s := Samples.busyDay in
  let t := newTask 1 (mkTaskInput "a" 1 0 1) in
  let behind :=
    if tz <? 0 then 0 <=? now mod JS.msPerDay + tz
    else JS.msPerDay <=? now mod JS.msPerDay + tz in
  (In t (filteredTasks tz (initialPage now s)) <->
   In t (tasks s) /\
   truthyId (parentTaskId t) = false /\
   localDay tz (idl t) = localDay tz now - (if behind then 1 else 0)) /\
  (behind = false ->
   (In t (filteredTasks tz (initialPage now s)) <->
    In t (getTodayTasks tz now s) /\ truthyId (parentTaskId t) = false)).
Proof.
  cbv zeta.
  apply (@initialPage_day 3600000 84600000 Samples.busyDay
           (newTask 1 (mkTaskInput "a" 1 0 1))).
  unfold JS.msPerDay. lia.
Defined.

(** *** Submitting the form *)

(** X16: [handleSubmit] with a blank title, an empty required time or an
    empty deadline only shows a message: the repository, the form and its
    being open stay as they are.  With a complete form and no task being
    edited it appends exactly one task, whose deadline is the form's text
    read as local time, and closes and resets the form; the new task has no
    parent and no links whatever parent the form names, because [addTask]
    does not read that key. *)
Theorem handleSubmit_new_task (tz now : Z) (w : Page) :
  let w' := handleSubmit tz now w in
  (JS.truthy (JS.trim (fd_title (formData w))) = false \/
   fd_rt (formData w) = None \/ fd_idl (formData w) = None ->
   planning w' = planning w /\ formData w' = formData w /\
   isFormOpen w' = isFormOpen w /\ editingTask w' = editingTask w /\
   alerts w' = alerts w ++ ["Please fill in all required fields"%string]) /\
  (forall r d,
      editingTask w = None ->
      JS.truthy (JS.trim (fd_title (formData w))) = true ->
      fd_rt (formData w) = Some r -> fd_idl (formData w) = Some d ->
      exists t,
        tasks (planning w') = tasks (planning w) ++ [t] /\
        parentTaskId t = None /\ linksTo t = [] /\
        title t = JS.trim (fd_title (formData w)) /\
        rt t = r /\ idl t = d - tz /\ il t = fd_il (formData w) /\
        id t = now /\
        isFormOpen w' = false /\ formData w' = emptyFormData /\
        alerts w' = alerts w).
Proof.
  cbv zeta. unfold handleSubmit. split.
  - intro H.
    destruct (JS.truthy (JS.trim (fd_title (formData w)))) eqn:T;
      destruct (fd_rt (formData w)) as [r|] eqn:R;
      destruct (fd_idl (formData w)) as [d|] eqn:I;
      try (repeat split; reflexivity).
    destruct H as [H|[H|H]]; discriminate.
  - intros r d E T R I. rewrite T, R, I, E. cbn.
    eexists. repeat split.
Qed.

(** *** Editing without changing anything *)

Lemma In_updateTask_merge (taskId : Z) (updates : Updates) (s : State)
    (task : Task) :
  In task (tasks s) -> id task = taskId ->
  In (merge task updates) (tasks (updateTask taskId updates s)).
Proof.
  intros Hin Hid. cbn. apply in_map_iff. exists task. split; [|exact Hin].
  unfold updateOne. apply Z.eqb_eq in Hid. rewrite Hid. reflexivity.
Qed.

(** X17: opening the form on a task and submitting it untouched is not
    the identity.  The deadline is shown as UTC, cut to the minute, and
    read back as local time, so the task comes out with its deadline moved
    to [idl - idl mod 60000 - tz]: in a zone [tz] milliseconds ahead of UTC
    every such edit moves a whole-minute deadline [tz] earlier.  Id,
    creation time, required time, importance level and links are kept, and
    the title comes back trimmed. *)
Theorem edit_round_trip_moves_deadline (tz now : Z) (w : Page) (task : Task) :
  JS.truthy (JS.trim (title task)) = true ->
  In task (tasks (planning w)) ->
  let w' := handleSubmit tz now (handleOpenForm (Some task) None w) in
  let task' :=
    merge task
      (taskDataUpdates (JS.trim (title task)) (rt task)
         (idl task - idl task mod msPerMinute - tz) (il task)
         (idText (parentTaskId task))) in
  planning w'
  = updateTask (id task)
      (taskDataUpdates (JS.trim (title task)) (rt task)
         (idl task - idl task mod msPerMinute - tz) (il task)
         (idText (parentTaskId task)))
      (planning w) /\
  In task' (tasks (planning w')) /\
  id task' = id task /\ createdAt task' = createdAt task /\
  rt task' = rt task /\ il task' = il task /\ linksTo task' = linksTo task /\
  title task' = JS.trim (title task) /\
  idl task' = idl task - idl task mod msPerMinute - tz /\
  (idl task mod msPerMinute = 0 -> tz <> 0 -> idl task' <> idl task).
Proof.
  intros T Hin. cbv zeta.
  assert (E : planning (handleSubmit tz now (handleOpenForm (Some task) None w))
              = updateTask (id task)
                  (taskDataUpdates (JS.trim (title task)) (rt task)
                     (idl task - idl task mod msPerMinute - tz) (il task)
                     (idText (parentTaskId task)))
                  (planning w)).
  { unfold handleSubmit, handleOpenForm.
    cbn [formData fd_title fd_rt fd_idl fd_il fd_parentTaskId editingTask
         planning isoMinute].
    rewrite T. reflexivity. }
  split; [exact E|]. split.
  - rewrite E. apply In_updateTask_merge; [exact Hin | reflexivity].
  - cbn. unfold JS.newDate. repeat split. intros M Z0. lia.
Qed.

Lemma edit_round_trip_moves_deadline_witness :
  let tz := 3600000 in
  let w := mkPage Samples.oneTask false None 0 None emptyFormData [] in
  let task := newTask 1 (mkTaskInput "a" 2 100 3) in
  let w' := handleSubmit tz 50 (handleOpenForm (Some task) None w) in
  let task' :=
    merge task
      (taskDataUpdates (JS.trim (title task)) (rt task)
         (idl task - idl task mod msPerMinute - tz) (il task)
         (idText (parentTaskId task))) in
  planning w'
  = updateTask (id task)
      (taskDataUpdates (JS.trim (title task)) (rt task)
         (idl task - idl task mod msPerMinute - tz) (il task)
         (idText (parentTaskId task)))
      (planning w) /\
  In task' (tasks (planning w')) /\
  id task' = id task /\ createdAt task' = createdAt task /\
  rt task' = rt task /\ il task' = il task /\ linksTo task' = linksTo task /\
  title task' = JS.trim (title task) /\
  idl task' = idl task - idl task mod msPerMinute - tz /\
  (idl task mod msPerMinute = 0 -> tz <> 0 -> idl task' <> idl task).
Proof.
  cbv zeta.
  apply (@edit_round_trip_moves_deadline 3600000 50
           (mkPage Samples.oneTask false None 0 None emptyFormData [])
           (newTask 1 (mkTaskInput "a" 2 100 3))).
  - reflexivity.
  - cbn. left. reflexivity.
Defined.

(** *** The default deadline *)

Lemma dateOfDayText_minute (k : Z) : dateOfDayText k mod msPerMinute = 0.
Proof.
  unfold dateOfDayText, JS.msPerDay, msPerMinute.
  replace (k * 86400000) with (k * 1440 * 60000) by lia.
  apply Z_mod_mult.
Qed.

Lemma localDay_local_midnight (tz k : Z) :
  localDay tz (dateOfLocalText tz (dateOfDayText k)) = k.
Proof.
  unfold localDay, dateOfLocalText, dateOfDayText.
  replace (k * JS.msPerDay - tz + tz) with (k * JS.msPerDay) by lia.
  apply Z_div_mult. reflexivity.
Qed.

(** X18: a task added with the deadline that the form proposes, the start
    of the selected day, is listed under the selected date when the zone is
    at or ahead of UTC, and is not listed under it when the zone is behind
    UTC. *)
Theorem default_deadline_listed (tz now : Z) (w : Page) (newTitle : string)
    (r : Q) :
  - JS.msPerDay < tz < JS.msPerDay ->
  JS.truthy (JS.trim newTitle) = true ->
  let w1 := changeRt (Some r) (changeTitle newTitle (handleOpenForm None None w)) in
  let w' := handleSubmit tz now w1 in
  let t := newTask now
             (mkTaskInput (JS.trim newTitle) r
                (dateOfLocalText tz (dateOfDayText (selectedDate w)))
                Constants.IMPORTANCE.MEDIUM) in
  tasks (planning w') = tasks (planning w) ++ [t] /\
  selectedDate w' = selectedDate w /\
  (In t (filteredTasks tz w') <-> 0 <= tz).
Proof.
  intros H T. cbv zeta.
  assert (E : tasks (planning
                (handleSubmit tz now
                   (changeRt (Some r)
                      (changeTitle newTitle (handleOpenForm None None w)))))
              = tasks (planning w)
                ++ [newTask now
                      (mkTaskInput (JS.trim newTitle) r
                         (dateOfLocalText tz (dateOfDayText (selectedDate w)))
                         Constants.IMPORTANCE.MEDIUM)]).
  { unfold handleSubmit, changeRt, changeTitle, handleOpenForm, setFormData,
      isoMinute.
    cbn [formData fd_title fd_rt fd_idl fd_il fd_parentTaskId editingTask
         planning selectedDate].
    rewrite T, dateOfDayText_minute, Z.sub_0_r. reflexivity. }
  split; [exact E|].
  assert (S : selectedDate
                (handleSubmit tz now
                   (changeRt (Some r)
                      (changeTitle newTitle (handleOpenForm None None w))))
              = selectedDate w).
  { unfold handleSubmit, changeRt, changeTitle, handleOpenForm, setFormData,
      isoMinute.
    cbn [formData fd_title fd_rt fd_idl fd_il fd_parentTaskId editingTask
         planning selectedDate].
    rewrite T. reflexivity. }
  split; [exact S|].
  rewrite In_filteredTasks, shownOn_spec, S, E,
    (localDay_dateOfDayText _ H).
  cbn [idl newTask in_idl JS.newDate parentTaskId truthyId].
  unfold JS.newDate. rewrite localDay_local_midnight.
  split.
  - intros [_ [D _]]. destruct (tz <? 0) eqn:F; [lia|].
    apply Z.ltb_ge. exact F.
  - intro P. split; [apply in_or_app; right; left; reflexivity|].
    split; [|reflexivity].
    apply Z.ltb_ge in P. rewrite P. reflexivity.
Qed.

Lemma default_deadline_listed_witness :
  let tz := - 18000000 in
  let now := 7 in
  let w := initialPage 0 initialState in
  let w1 := changeRt (Some 1%Q) (changeTitle "a" (handleOpenForm None None w)) in
  let w' := handleSubmit tz now w1 in
  let t := newTask now
             (mkTaskInput (JS.trim "a") 1
                (dateOfLocalText tz (dateOfDayText (selectedDate w)))
                Constants.IMPORTANCE.MEDIUM) in
  tasks (planning w') = tasks (planning w) ++ [t] /\
  selectedDate w' = selectedDate w /\
  (In t (filteredTasks tz w') <-> 0 <= tz).
Proof.
  cbv zeta.
  apply (@default_deadline_listed (- 18000000) 7 (initialPage 0 initialState)
           "a" 1%Q).
  - unfold JS.msPerDay. lia.
  - reflexivity.
Defined.

End DailyPlanPageFacts.

(** ** The parent relation under the form *)

Module HierarchyFacts.
Import PlanningContext FormText DailyPlanPage Hierarchy.

Lemma ancestor_mono (ts ts' : list Task) :
  (forall a b, parentEdge ts' a b -> parentEdge ts a b) ->
  forall a b, ancestor ts' a b -> ancestor ts a b.
Proof.
  intros H a b A. induction A as [a b E|a b c E _ IH].
  - apply ancestor_parent, H, E.
  - eapply ancestor_step; [apply H, E | exact IH].
Qed.

Lemma ancestor_first (ts : list Task) (a c : Z) :
  ancestor ts a c -> exists b, parentEdge ts a b.
Proof. intro A. destruct A as [a b E|a b c E _]; exists b; exact E. Qed.

Lemma same_id_same_task (ts : list Task) (t q : Task) :
  NoDup (map id ts) -> In t ts -> In q ts -> id t = id q -> t = q.
Proof.
  induction ts as [|x ts IH]; cbn; intros N Ht Hq E; [contradiction|].
  inversion N as [|? ? Hx N']; subst.
  destruct Ht as [->|Ht], Hq as [->|Hq]; try reflexivity.
  - exfalso. apply Hx. rewrite E. apply in_map. exact Hq.
  - exfalso. apply Hx. rewrite <- E. apply in_map. exact Ht.
  - apply IH; assumption.
Qed.

(** The edges after an update that sets the parent of the tasks with id
    [e] to [p] and rewrites no id. *)
Lemma parentEdge_updateTask (e : Z) (updates : Updates) (s : State)
    (p : option Z) (a b : Z) :
  u_id updates = None -> u_parentTaskId updates = Some p ->
  parentEdge (tasks (updateTask e updates s)) a b ->
  (a <> e /\ parentEdge (tasks s) a b) \/ (a = e /\ p = Some b /\ b <> 0).
Proof.
  intros Hid Hp [t' [Hin [Ha [Hb Hz]]]]. cbn in Hin.
  apply in_map_iff in Hin. destruct Hin as [t [<- Hin]].
  unfold updateOne in *. destruct (id t =? e) eqn:E.
  - right. apply Z.eqb_eq in E. cbn in Ha, Hb. rewrite Hid in Ha.
    rewrite Hp in Hb. cbn in Ha, Hb. repeat split; congruence.
  - left. apply Z.eqb_neq in E. split; [congruence|].
    exists t. auto.
Qed.

Lemma idText_Some (p : option Z) (b : Z) :
  idText p = Some b -> p = Some b /\ b <> 0.
Proof.
  unfold idText, truthyId. destruct p as [v|]; [|discriminate].
  destruct (v =? 0) eqn:E; cbn; [discriminate|].
  intro H. injection H as <-. apply Z.eqb_neq in E. auto.
Qed.

(** X19: the form cannot close a parent cycle.  When the ids of the
    repository are distinct and no task is its own ancestor, a submitted
    edit whose parent field is empty, or still holds the edited task's own
    parent as the form prefilled it, or holds one of the options the
    parent select offers, leaves a repository in which again no task is its
    own ancestor. *)
Theorem handleSubmit_keeps_acyclic (tz now : Z) (w : Page) (editing : Task) :
  editingTask w = Some editing ->
  NoDup (map id (tasks (planning w))) ->
  acyclic (tasks (planning w)) ->
  fd_parentTaskId (formData w) = None \/
  (In editing (tasks (planning w)) /\
   fd_parentTaskId (formData w) = idText (parentTaskId editing)) \/
  (exists q, In q (availableParentTasks w) /\
             fd_parentTaskId (formData w) = Some (id q)) ->
  acyclic (tasks (planning (handleSubmit tz now w))).
Proof.
  intros He Nd Ac Hp. unfold handleSubmit.
  destruct (JS.truthy (JS.trim (fd_title (formData w))));
    destruct (fd_rt (formData w)) as [r|];
    destruct (fd_idl (formData w)) as [d|]; try exact Ac.
  rewrite He. cbn [planning handleCloseForm].
  set (u := taskDataUpdates _ _ _ _ _).
  assert (Edge := fun a b =>
            @parentEdge_updateTask (id editing) u (planning w)
              (fd_parentTaskId (formData w)) a b eq_refl eq_refl).
  destruct Hp as [Hp|[[Hin Hp]|[q [Hq Hp]]]].
  - (* no parent *)
    intros a A. apply (Ac a). revert A. apply ancestor_mono.
    intros x y E. apply Edge in E. destruct E as [[_ E]|[_ [E _]]];
      [exact E | congruence].
  - (* the parent it had *)
    intros a A. apply (Ac a). revert A. apply ancestor_mono.
    intros x y E. apply Edge in E. destruct E as [[_ E]|[-> [E _]]];
      [exact E|].
    rewrite Hp in E. apply idText_Some in E. destruct E as [E Z0].
    exists editing. auto.
  - (* an offered parent *)
    unfold availableParentTasks in Hq. rewrite He in Hq.
    apply filter_In in Hq. destruct Hq as [Hq Hr].
    apply andb_true_iff in Hr. destruct Hr as [Hroot Hne].
    apply negb_true_iff in Hroot. apply negb_true_iff, Z.eqb_neq in Hne.
    assert (Sink : forall b, ~ parentEdge (tasks (planning w)) (id q) b).
    { intros b [t [Ht [Hi [Hb Z0]]]].
      assert (t = q) by (apply (@same_id_same_task (tasks (planning w))); assumption).
      subst t. unfold truthyId in Hroot. rewrite Hb in Hroot.
      apply Z.eqb_neq in Z0. rewrite Z0 in Hroot. discriminate. }
    assert (Sink' : forall b,
               ~ parentEdge (tasks (updateTask (id editing) u (planning w)))
                   (id q) b).
    { intros b E. apply Edge in E. destruct E as [[_ E]|[E _]];
        [exact (Sink b E) | contradiction]. }
    assert (Reach : forall x y,
               ancestor (tasks (updateTask (id editing) u (planning w))) x y ->
               ancestor (tasks (planning w)) x y \/ y = id q).
    { intros x y A. induction A as [x y E|x y z E A IH].
      - apply Edge in E. destruct E as [[_ E]|[_ [E _]]].
        + left. apply ancestor_parent, E.
        + right. congruence.
      - destruct IH as [IH|IH]; [|right; exact IH].
        apply Edge in E. destruct E as [[_ E]|[_ [E _]]].
        + left. eapply ancestor_step; eassumption.
        + exfalso. assert (y = id q) by congruence. subst y.
          destruct (ancestor_first IH) as [b Eb]. exact (Sink b Eb). }
    intros a A. destruct (Reach a a A) as [R|R]; [exact (Ac a R)|].
    subst a. destruct (ancestor_first A) as [b Eb]. exact (Sink' b Eb).
Qed.

Lemma handleSubmit_keeps_acyclic_witness :
  acyclic
    (tasks (planning (handleSubmit 0 9 PageSamples.editingSecond))).
Proof.
  apply (@handleSubmit_keeps_acyclic 0 9 PageSamples.editingSecond
           (newTask 2 (mkTaskInput "b" 1 100 2))).
  - reflexivity.
  - cbn. repeat constructor; cbn; intuition discriminate.
  - intros a A. destruct (ancestor_first A) as [b [t [Hin [_ [Hp _]]]]].
    cbn in Hin. destruct Hin as [<-|[<-|[]]]; discriminate Hp.
  - right; right. exists (newTask 1 (mkTaskInput "a" 1 100 1)).
    split; [cbn; left; reflexivity | reflexivity].
Defined.

(** The edit of the sample does set the parent. *)
Example handleSubmit_sets_parent :
  map parentTaskId (tasks (planning (handleSubmit 0 9 PageSamples.editingSecond)))
  = [None; Some 1].
Proof. reflexivity. Qed.

End HierarchyFacts.

(** ** The observation page: opening, converting, analysing *)

Module ObservationsPageFacts.
Import ObservationsContext Observations ObservationsPage.

Section Handlers.

Variable parseFloatText : string -> Q.
Variable dateOfText : string -> Z.
Variable isoMinuteText : Z -> string.

(** X20: the convert form opens with an empty required time, so
    submitting it as it opened converts nothing: both repositories stay as
    they are, the observation stays selected with the form open, and the
    page asks for the required fields. *)
Theorem convert_needs_required_time (now now' : Z) (observation : Observation)
    (w : World) :
  let w' := exec (handleOpenConvert isoMinuteText now observation ;;
                  handleConvertToTask parseFloatText dateOfText now') w in
  planning w' = planning w /\
  observing w' = observing w /\
  selectedObservation w' = Some observation /\
  isConvertModalOpen w' = true /\
  f_title (taskFormData w') = content observation /\
  alerts w' = alerts w ++ ["Please fill in all required task fields"%string].
Proof.
  cbv zeta. unfold exec, handleOpenConvert, handleConvertToTask, bind, read,
    setSelectedObservation, setTaskFormData, setIsConvertModalOpen.
  cbn [fst snd selectedObservation taskFormData].
  assert (M : forall t i l, missingField (mkTaskFormData t EmptyString i l) = true).
  { intros t i l. unfold missingField. cbn [f_rt f_title f_idl JS.truthy].
    destruct (negb (JS.truthy (JS.trim t))); reflexivity. }
  rewrite M. repeat split.
Qed.

(** X21: a conversion clears the selection, so a second submit, a double
    click, changes nothing more: one task, one converted observation. *)
Theorem convert_twice_is_once (now now' : Z) (w : World)
    (selected : Observation) :
  selectedObservation w = Some selected ->
  missingField (taskFormData w) = false ->
  let h := fun t => exec (handleConvertToTask parseFloatText dateOfText t) in
  h now' (h now w) = h now w /\
  List.length (PlanningContext.tasks (planning (h now' (h now w))))
  = S (List.length (PlanningContext.tasks (planning w))).
Proof.
  intros Hs Hm. cbv beta zeta.
  assert (N : selectedObservation
                (exec (handleConvertToTask parseFloatText dateOfText now) w)
              = None).
  { unfold exec, handleConvertToTask, bind, read. rewrite Hs, Hm.
    reflexivity. }
  rewrite (ObservationsFacts.handleConvertToTask_nothing_selected
             parseFloatText dateOfText now' _ N).
  split; [reflexivity|].
  unfold exec, handleConvertToTask, bind, read. rewrite Hs, Hm. cbn.
  rewrite length_app. cbn. lia.
Qed.

End Handlers.

Lemma convert_twice_is_once_witness :
  let h := fun t =>
             exec (handleConvertToTask (fun _ => 1.5%Q)
                     (fun _ => 1714557600000) t) in
  h 6000 (h 5000 (Samples.world0 Samples.filledForm))
  = h 5000 (Samples.world0 Samples.filledForm) /\
  List.length (PlanningContext.tasks
                 (planning (h 6000 (h 5000 (Samples.world0 Samples.filledForm)))))
  = S (List.length (PlanningContext.tasks
                      (planning (Samples.world0 Samples.filledForm)))).
Proof.
  cbv beta zeta.
  apply (@convert_twice_is_once (fun _ => 1.5%Q) (fun _ => 1714557600000)
           5000 6000 (Samples.world0 Samples.filledForm) Samples.caught);
    reflexivity.
Defined.

End ObservationsPageFacts.

(** ** The expanded nodes of the tree view *)

Module TaskTreeViewFacts.
Import TaskTreeView.

Lemma has_app (s1 s2 : list Z) (x : Z) :
  has (s1 ++ s2) x = has s1 x || has s2 x.
Proof. apply existsb_app. Qed.

Lemma has_In (s : list Z) (x : Z) : has s x = true <-> In x s.
Proof.
  unfold has. rewrite existsb_exists. split.
  - intros [y [Hy E]]. apply Z.eqb_eq in E. subst y. exact Hy.
  - intro H. exists x. split; [exact H | apply Z.eqb_refl].
Qed.

Lemma has_delete (s : list Z) (x y : Z) :
  has (delete x s) y = has s y && negb (y =? x).
Proof.
  apply Bool.eq_iff_eq_true.
  rewrite andb_true_iff, !has_In, negb_true_iff, Z.eqb_neq.
  unfold delete. rewrite filter_In, negb_true_iff, Z.eqb_neq. reflexivity.
Qed.

Lemma has_toggleNode (taskId : Z) (s : list Z) (x : Z) :
  has (toggleNode taskId s) x
  = if x =? taskId then negb (has s x) else has s x.
Proof.
  unfold toggleNode, add. cbv zeta.
  destruct (has s taskId) eqn:H.
  - rewrite has_delete. destruct (x =? taskId) eqn:E.
    + apply Z.eqb_eq in E. subst x. rewrite H. reflexivity.
    + cbn. apply andb_true_r.
  - rewrite has_app. cbn. rewrite orb_false_r.
    destruct (x =? taskId) eqn:E.
    + apply Z.eqb_eq in E. subst x. rewrite H, Z.eqb_refl. reflexivity.
    + rewrite Z.eqb_sym, E. apply orb_false_r.
Qed.

(** X24: [toggleNode] flips the expansion of the one node it is given and
    of no other, so toggling a node twice leaves every node expanded or
    collapsed as it was; and the set never comes to hold an id twice. *)
Theorem toggleNode_flips_one (taskId : Z) (s : list Z) :
  (forall x, has (toggleNode taskId s) x
             = if x =? taskId then negb (has s x) else has s x) /\
  (forall x, has (toggleNode taskId (toggleNode taskId s)) x = has s x) /\
  (NoDup s -> NoDup (toggleNode taskId s)).
Proof.
  split; [|split].
  - intro x. apply has_toggleNode.
  - intro x. rewrite !has_toggleNode.
    destruct (x =? taskId); [apply negb_involutive | reflexivity].
  - intro N. unfold toggleNode, add, delete. cbv zeta.
    destruct (has s taskId) eqn:H.
    + apply NoDup_filter. exact N.
    + apply NoDup_app; [exact N | repeat constructor; intros [] |].
      intros x Hx [E|[]]. subst x.
      assert (X : has s taskId = true) by (apply has_In; exact Hx).
      congruence.
Qed.

End TaskTreeViewFacts.

(** ** The tags of an analysis *)

Module TagsFacts.
Import ObservationsContext ObservationsPage.
Local Open Scope string_scope.

(** *** Reversal and trimming *)

Local Abbreviation rev := (JS.rev_string EmptyString).

Lemma append_assoc (a b c : string) : (a ++ b) ++ c = a ++ (b ++ c).
Proof. induction a as [|x a IH]; cbn; [|rewrite IH]; reflexivity. Qed.

Lemma rev_string_app (s acc : string) :
  JS.rev_string acc s = rev s ++ acc.
Proof.
  revert acc. induction s as [|c s IH]; intro acc; cbn; [reflexivity|].
  rewrite IH, (IH (String c EmptyString)), append_assoc.
  reflexivity.
Qed.

Lemma rev_cons (c : ascii) (s : string) :
  rev (String c s) = rev s ++ String c EmptyString.
Proof. cbn. apply rev_string_app. Qed.

Lemma append_empty_r (s : string) : s ++ EmptyString = s.
Proof. induction s as [|c s IH]; cbn; [|rewrite IH]; reflexivity. Qed.

Lemma rev_app (a b : string) : rev (a ++ b) = rev b ++ rev a.
Proof.
  induction a as [|c a IH]; cbn [append].
  - rewrite append_empty_r. reflexivity.
  - rewrite !rev_cons, IH, append_assoc. reflexivity.
Qed.

Lemma rev_involutive (s : string) : rev (rev s) = s.
Proof.
  induction s as [|c s IH]; [reflexivity|].
  rewrite rev_cons, rev_app, IH. reflexivity.
Qed.

Lemma trimStart_length (s : string) :
  (String.length (JS.trimStart s) <= String.length s)%nat.
Proof.
  induction s as [|c s IH]; cbn; [lia|].
  destruct (JS.isWhiteSpace c); cbn; lia.
Qed.

Lemma trimStart_fixed_head (c : ascii) (s : string) :
  JS.trimStart (String c s) = String c s -> JS.isWhiteSpace c = false.
Proof.
  cbn. destruct (JS.isWhiteSpace c); [|reflexivity].
  intro H. assert (L := trimStart_length s). rewrite H in L. cbn in L. lia.
Qed.

Lemma trimStart_idempotent (s : string) :
  JS.trimStart (JS.trimStart s) = JS.trimStart s.
Proof.
  induction s as [|c s IH]; [reflexivity|]. cbn.
  destruct (JS.isWhiteSpace c) eqn:E; [exact IH|]. cbn. rewrite E.
  reflexivity.
Qed.

Lemma trimStart_keeps_last (c : ascii) (a : string) :
  JS.isWhiteSpace c = false ->
  exists z, JS.trimStart (a ++ String c EmptyString) = z ++ String c EmptyString.
Proof.
  intro H. induction a as [|d a IH]; cbn.
  - rewrite H. exists EmptyString. reflexivity.
  - destruct (JS.isWhiteSpace d); [exact IH|].
    exists (String d a). reflexivity.
Qed.

Lemma trimEnd_idempotent (s : string) :
  JS.trimEnd (JS.trimEnd s) = JS.trimEnd s.
Proof.
  unfold JS.trimEnd. rewrite rev_involutive, trimStart_idempotent.
  reflexivity.
Qed.

Lemma trimStart_trimEnd (s : string) :
  JS.trimStart s = s -> JS.trimStart (JS.trimEnd s) = JS.trimEnd s.
Proof.
  destruct s as [|c s]; [reflexivity|]. intro H.
  apply trimStart_fixed_head in H. unfold JS.trimEnd.
  rewrite rev_cons.
  destruct (@trimStart_keeps_last c (rev s) H) as [z ->].
  rewrite rev_app. cbn. rewrite H. reflexivity.
Qed.

Lemma trim_clean (s : string) :
  JS.trimStart (JS.trim s) = JS.trim s /\ JS.trimEnd (JS.trim s) = JS.trim s.
Proof.
  unfold JS.trim. split.
  - apply trimStart_trimEnd, trimStart_idempotent.
  - apply trimEnd_idempotent.
Qed.

(** *** Commas *)

Lemma noComma_cons (c : ascii) (s : string) :
  noComma (String c s) <-> c <> ","%char /\ noComma s.
Proof.
  unfold noComma. cbn. split.
  - intro H. inversion H; subst. auto.
  - intros [H1 H2]. constructor; assumption.
Qed.

Lemma noComma_app (a b : string) :
  noComma (a ++ b) <-> noComma a /\ noComma b.
Proof.
  induction a as [|c a IH]; cbn [append].
  - split; [intro H; split; [constructor | exact H] | tauto].
  - rewrite !noComma_cons, IH. tauto.
Qed.

Lemma noComma_rev (s : string) : noComma (rev s) <-> noComma s.
Proof.
  induction s as [|c s IH]; [reflexivity|].
  rewrite rev_cons, noComma_app, !noComma_cons, IH.
  split; [|intros [H1 H2]; repeat split; [exact H2 | exact H1 | constructor]].
  tauto.
Qed.

Lemma noComma_trimStart (s : string) : noComma s -> noComma (JS.trimStart s).
Proof.
  induction s as [|c s IH]; cbn; [auto|]. intro H.
  destruct (JS.isWhiteSpace c); [|exact H].
  apply IH. apply noComma_cons in H. tauto.
Qed.

Lemma noComma_trim (s : string) : noComma s -> noComma (JS.trim s).
Proof.
  intro H. unfold JS.trim, JS.trimEnd.
  apply noComma_rev, noComma_trimStart, noComma_rev, noComma_trimStart, H.
Qed.

Lemma split_not_nil (s : string) : split s <> [].
Proof.
  induction s as [|c s IH]; cbn; [discriminate|].
  destruct (Ascii.eqb c ","); [discriminate|].
  destruct (split s); discriminate.
Qed.

Lemma split_noComma_parts (s : string) : Forall noComma (split s).
Proof.
  induction s as [|c s IH]; cbn.
  - repeat constructor.
  - destruct (Ascii.eqb c ",") eqn:E.
    + constructor; [constructor | exact IH].
    + apply Ascii.eqb_neq in E.
      destruct (split s) as [|h t]; [repeat constructor; exact E|].
      inversion IH; subst. constructor; [|assumption].
      apply noComma_cons. auto.
Qed.

Lemma split_cons_other (c : ascii) (s : string) :
  c <> ","%char ->
  split (String c s)
  = match split s with
    | h :: t => String c h :: t
    | [] => [String c EmptyString]
    end.
Proof. intro H. cbn. apply Ascii.eqb_neq in H. rewrite H. reflexivity. Qed.

Lemma split_app_comma (t rest : string) :
  noComma t -> split (t ++ String ","%char rest) = t :: split rest.
Proof.
  induction t as [|c t IH]; intro H; [reflexivity|].
  apply noComma_cons in H. destruct H as [Hc Ht].
  cbn [append]. rewrite split_cons_other by exact Hc.
  rewrite IH by exact Ht. reflexivity.
Qed.

Lemma split_one (t : string) : noComma t -> split t = [t].
Proof.
  induction t as [|c t IH]; intro H; [reflexivity|].
  apply noComma_cons in H. destruct H as [Hc Ht].
  rewrite split_cons_other by exact Hc. rewrite IH by exact Ht.
  reflexivity.
Qed.

Lemma split_join (t : string) (l : list string) :
  Forall noComma (t :: l) ->
  split (join (t :: l)) = t :: map (String " "%char) l.
Proof.
  revert t. induction l as [|t2 l IH]; intros t H.
  - cbn. apply split_one. inversion H; assumption.
  - inversion H as [|? ? Ht Hl]; subst.
    change (join (t :: t2 :: l))
      with (t ++ String ","%char (String " "%char (join (t2 :: l)))).
    rewrite split_app_comma by exact Ht.
    rewrite split_cons_other by discriminate.
    rewrite IH by exact Hl. reflexivity.
Qed.

(** *** What the analysis form parses and shows *)

(** X22: whatever the text of the tags input, every tag that
    [handleAnalyze] passes on is not empty, has no white space at either
    end and holds no comma. *)
Theorem parseTags_clean (text : string) : Forall cleanTag (parseTags text).
Proof.
  apply Forall_forall. intros x Hx. unfold parseTags in Hx.
  apply filter_In in Hx. destruct Hx as [Hx Hl].
  apply in_map_iff in Hx. destruct Hx as [s [<- Hs]].
  destruct (trim_clean s) as [T1 T2].
  repeat split; try assumption.
  - intro E. rewrite E in Hl. discriminate.
  - apply noComma_trim.
    assert (P := split_noComma_parts text). rewrite Forall_forall in P.
    apply P, Hs.
Qed.

Lemma trim_clean_tag (t : string) : cleanTag t -> JS.trim t = t.
Proof.
  intros [_ [H1 [H2 _]]]. unfold JS.trim. rewrite H1. exact H2.
Qed.

Lemma trim_spaced_tag (t : string) :
  cleanTag t -> JS.trim (String " "%char t) = t.
Proof.
  intros [_ [H1 [H2 _]]]. unfold JS.trim. cbn [JS.trimStart].
  change (JS.isWhiteSpace " ") with true. cbv iota. rewrite H1. exact H2.
Qed.

Lemma filter_nonempty_clean (l : list string) :
  Forall cleanTag l ->
  filter (fun tag => (0 <? String.length tag)%nat) l = l.
Proof.
  induction 1 as [|t l [Ht _] _ IH]; [reflexivity|].
  destruct t as [|c t]; [contradiction|].
  change (filter (fun tag => (0 <? String.length tag)%nat) (String c t :: l))
    with (String c t :: filter (fun tag => (0 <? String.length tag)%nat) l).
  rewrite IH. reflexivity.
Qed.

Lemma parseTags_join (l : list string) :
  Forall cleanTag l -> parseTags (join l) = l.
Proof.
  intro H. destruct l as [|t l]; [reflexivity|].
  unfold parseTags. rewrite split_join.
  - inversion H as [|? ? Ht Hl]; subst. cbn [map].
    rewrite (trim_clean_tag Ht), map_map.
    rewrite (map_ext_in _ (fun x => x)).
    + rewrite map_id. apply filter_nonempty_clean, H.
    + intros x Hx. apply trim_spaced_tag.
      rewrite Forall_forall in Hl. apply Hl, Hx.
  - eapply Forall_impl; [|exact H]. intros x [_ [_ [_ Hx]]]. exact Hx.
Qed.

(** X23: opening the analysis form on an observation and submitting it
    untouched hands back the observation's tags, when they are tags as the
    form produces them.  The lesson comes back too, an empty one as null;
    the evaluation point comes back unless it is 0: a point of 0 is shown
    as an empty input and returns as null. *)
Theorem analysis_round_trip (observation : Observation) :
  Forall cleanTag (tags observation) ->
  an_tags (analysisOf (openAnalysisData observation)) = tags observation /\
  an_lessonIdentified (analysisOf (openAnalysisData observation))
  = match lessonIdentified observation with
    | Some l => if JS.truthy l then Some l else None
    | None => None
    end /\
  (forall v, ep observation = Some v -> ~ (v == 0)%Q ->
             an_ep (analysisOf (openAnalysisData observation)) = Some v) /\
  (forall v, ep observation = Some v -> (v == 0)%Q ->
             an_ep (analysisOf (openAnalysisData observation)) = None) /\
  (ep observation = None ->
   an_ep (analysisOf (openAnalysisData observation)) = None).
Proof.
  intro H. unfold analysisOf, openAnalysisData.
  cbn [an_tags an_lessonIdentified an_ep a_tags a_lessonIdentified a_ep].
  split; [apply parseTags_join, H|]. split; [|split; [|split]].
  - destruct (lessonIdentified observation) as [l|]; reflexivity.
  - intros v -> Hv. cbn. destruct (Qeq_bool v 0) eqn:E; [|reflexivity].
    apply Qeq_bool_iff in E. contradiction.
  - intros v -> Hv. cbn. apply Qeq_bool_iff in Hv. rewrite Hv. reflexivity.
  - intros ->. reflexivity.
Qed.

Lemma analysis_round_trip_witness :
  let observation :=
    mkObservation 7 "idea" 0 analyzed ["work"; "side project"] (Some "")
      (Some 0%Q) None in
  an_tags (analysisOf (openAnalysisData observation)) = tags observation /\
  an_lessonIdentified (analysisOf (openAnalysisData observation))
  = match lessonIdentified observation with
    | Some l => if JS.truthy l then Some l else None
    | None => None
    end /\
  (forall v, ep observation = Some v -> ~ (v == 0)%Q ->
             an_ep (analysisOf (openAnalysisData observation)) = Some v) /\
  (forall v, ep observation = Some v -> (v == 0)%Q ->
             an_ep (analysisOf (openAnalysisData observation)) = None) /\
  (ep observation = None ->
   an_ep (analysisOf (openAnalysisData observation)) = None).
Proof.
  cbv zeta.
  apply (@analysis_round_trip
           (mkObservation 7 "idea" 0 analyzed ["work"; "side project"]
              (Some "") (Some 0%Q) None)).
  cbn. repeat constructor; try discriminate; intro E; inversion E.
Defined.

Example parseTags_examples :
  parseTags " work , , side project,idea ,," = ["work"; "side project"; "idea"]
  /\ parseTags "" = []
  /\ parseTags " , ," = []
  /\ join ["work"; "side project"; "idea"] = "work, side project, idea".
Proof. repeat split. Qed.

End TagsFacts.
